(** * Account_Summary_MP_to_XLSX: the statement parser

    A shallow embedding of the parsing core of
    [Account_Summary_MP_to_XLSX.py]: [combine_broken_lines],
    [extract_fields_from_line], [convert_money_to_number], [clean_balance]
    and the row loop of [pdf_text_to_dataframe].

    Python strings are modelled as lists of characters.  The character type
    is [ascii], read as the code points below 256: on that range the regex
    class [\d] is exactly '0'..'9' and [str.strip] removes the twelve code
    points listed in [is_space].  Operations that can raise in Python
    (subscripting a list, [str.index]) live in the [result] monad, so that
    "never raises" is a statement about the model and not an assumption. *)

From Stdlib Require Import Ascii String List ZArith Lia Bool.
Import ListNotations.

Open Scope list_scope.

(** ** Strings *)

Abbreviation str := (list ascii).

Definition s (x : string) : str := list_ascii_of_string x.

Definition is_nonempty {A} (l : list A) : bool :=
  match l with [] => false | _ :: _ => true end.

(** ** Exceptions *)

Inductive exn := IndexError | ValueError.

Inductive result (A : Type) :=
| Ok (a : A)
| Raise (e : exn).

Arguments Ok {A} a.
Arguments Raise {A} e.

Definition bind {A B} (m : result A) (k : A -> result B) : result B :=
  match m with
  | Ok a => k a
  | Raise e => Raise e
  end.

Notation "x <- m ;; k" := (bind m (fun x => k))
  (at level 61, m at next level, right associativity).

(** ** Character classes *)

(** [\d] in a [str] pattern, on code points below 256. *)
Definition is_digit (c : ascii) : bool :=
  let n := nat_of_ascii c in (48 <=? n) && (n <=? 57).

(** The characters removed by [str.strip()], on code points below 256:
    TAB, LF, VT, FF, CR, FS, GS, RS, US, SPACE, NEL and NBSP. *)
Definition is_space (c : ascii) : bool :=
  let n := nat_of_ascii c in
  ((9 <=? n) && (n <=? 13)) || ((28 <=? n) && (n <=? 32))
  || (n =? 133) || (n =? 160).

Definition newline : ascii := ascii_of_nat 10.
Definition dollar : ascii := "$"%char.
Definition dot : ascii := "."%char.
Definition comma : ascii := ","%char.
Definition dash : ascii := "-"%char.
Definition space : ascii := " "%char.

(** ** String methods *)

Fixpoint lstrip (x : str) : str :=
  match x with
  | [] => []
  | c :: t => if is_space c then lstrip t else x
  end.

Fixpoint rstrip (x : str) : str :=
  match x with
  | [] => []
  | c :: t =>
      match rstrip t with
      | [] => if is_space c then [] else [c]
      | t' => c :: t'
      end
  end.

(** [x.strip()] *)
Definition strip (x : str) : str := rstrip (lstrip x).

(** [x.split('\n')]: never empty, the pieces hold no line break. *)
Fixpoint split_lines (x : str) : list str :=
  match x with
  | [] => [[]]
  | c :: t =>
      if Ascii.eqb c newline then [] :: split_lines t
      else match split_lines t with
           | [] => [[c]]
           | l :: ls => (c :: l) :: ls
           end
  end.

(** [x.replace(old, new)] for a one-character [old]. *)
Definition replace (old : ascii) (new : str) (x : str) : str :=
  flat_map (fun c => if Ascii.eqb c old then new else [c]) x.

(** [c in x] for a one-character [c]. *)
Definition contains (c : ascii) (x : str) : bool :=
  existsb (Ascii.eqb c) x.

Fixpoint find_char (c : ascii) (x : str) : option nat :=
  match x with
  | [] => None
  | d :: t => if Ascii.eqb d c then Some 0
              else option_map S (find_char c t)
  end.

(** [x.index(c)]: raises ValueError when [c] does not occur. *)
Definition index (c : ascii) (x : str) : result nat :=
  match find_char c x with
  | Some i => Ok i
  | None => Raise ValueError
  end.

Fixpoint startswith (sub x : str) : bool :=
  match sub, x with
  | [], _ => true
  | _ :: _, [] => false
  | a :: sub', b :: x' => Ascii.eqb a b && startswith sub' x'
  end.

(** [x.rfind(sub)]: the highest index at which [sub] occurs, -1 if none. *)
Fixpoint rfind (sub x : str) : Z :=
  match x with
  | [] => if startswith sub [] then 0%Z else (-1)%Z
  | _ :: t =>
      let r := rfind sub t in
      if (0 <=? r)%Z then (r + 1)%Z
      else if startswith sub x then 0%Z else (-1)%Z
  end.

(** [x[:k]] for an integer [k] of either sign. *)
Definition slice_to (x : str) (k : Z) : str :=
  if (k <? 0)%Z
  then firstn (Z.to_nat (Z.max 0 (Z.of_nat (length x) + k))) x
  else firstn (Z.to_nat k) x.

(** [x[i:j]] and [x[i:]] for indices that are not negative. *)
Definition slice (x : str) (i j : nat) : str := firstn (j - i) (skipn i x).
Definition slice_from (x : str) (i : nat) : str := skipn i x.

(** [l[i]] on a list: negative indices count from the end, an index out of
    range raises IndexError. *)
Definition getitem {A} (l : list A) (i : Z) : result A :=
  let n := Z.of_nat (length l) in
  let j := if (i <? 0)%Z then (n + i)%Z else i in
  if ((j <? 0) || (n <=? j))%Z then Raise IndexError
  else match nth_error l (Z.to_nat j) with
       | Some a => Ok a
       | None => Raise IndexError
       end.

(** ** Compiled patterns *)

(** A match object: [start()], [end()] and [group(0)]. *)
Record re_match := mk_match { m_start : nat; m_end : nat; m_group : str }.

Fixpoint match_classes (p : list (ascii -> bool)) (x : str) : bool :=
  match p, x with
  | [], _ => true
  | _ :: _, [] => false
  | k :: p', c :: x' => k c && match_classes p' x'
  end.

Definition is_dash (c : ascii) : bool := Ascii.eqb c dash.

(** [^\d{2}-\d{2}-\d{4}] *)
Definition date_pattern : list (ascii -> bool) :=
  [is_digit; is_digit; is_dash; is_digit; is_digit; is_dash;
   is_digit; is_digit; is_digit; is_digit].

(** [date_pattern.match(x)] *)
Definition date_pattern_match (x : str) : option re_match :=
  if match_classes date_pattern x
  then Some (mk_match 0 (length date_pattern) (firstn (length date_pattern) x))
  else None.

(** [date_pattern.search(x)]: the pattern starts with [^] and is compiled
    without MULTILINE, so a search can only succeed at position 0. *)
Definition date_pattern_search (x : str) : option re_match :=
  date_pattern_match x.

Fixpoint finditer_from (c : ascii) (i : nat) (x : str) : list re_match :=
  match x with
  | [] => []
  | d :: t =>
      if Ascii.eqb d c
      then mk_match i (S i) [c] :: finditer_from c (S i) t
      else finditer_from c (S i) t
  end.

(** [list(money_pattern.finditer(x))] for the pattern [\$]. *)
Definition money_pattern_finditer (x : str) : list re_match :=
  finditer_from dollar 0 x.

Definition flush_run (cur : str) : list str :=
  match cur with [] => [] | _ :: _ => [cur] end.

Fixpoint digit_runs (cur : str) (x : str) : list str :=
  match x with
  | [] => flush_run cur
  | c :: t =>
      if is_digit c then digit_runs (cur ++ [c]) t
      else flush_run cur ++ digit_runs [] t
  end.

(** [id_pattern.findall(x)] for the pattern [\d+]: the maximal digit runs,
    left to right. *)
Definition id_pattern_findall (x : str) : list str := digit_runs [] x.

(** ** The value normalizer *)

Definition convert_money_to_number (money_str : str) : str :=
  strip (replace comma [dot] (replace dot [] (replace dollar [] money_str))).

Definition clean_balance (balance_str : str) : result str :=
  if contains dot balance_str then
    decimal_pos <- index dot balance_str ;;
    if decimal_pos + 3 <? length balance_str
    then Ok (firstn (decimal_pos + 3) balance_str)
    else Ok balance_str
  else Ok balance_str.

(** ** The field extractor *)

(** The list [[date, description, operation_id, value, balance]]. *)
Record fields := mk_fields {
  f_date : str;
  f_description : str;
  f_operation_id : str;
  f_value : str;
  f_balance : str
}.

Definition extract_fields_from_line (line : str) : result (option fields) :=
  match date_pattern_search line with
  | None => Ok None
  | Some date_match =>
      let date := m_group date_match in
      let rest_of_line := strip (slice_from line (m_end date_match)) in
      let money_matches := money_pattern_finditer rest_of_line in
      if length money_matches <? 2 then Ok None
      else
        m0 <- getitem money_matches 0 ;;
        m1 <- getitem money_matches 1 ;;
        let first_money := m_start m0 in
        let second_money := m_start m1 in
        let before_money := strip (slice rest_of_line 0 first_money) in
        let value_str := strip (slice rest_of_line first_money second_money) in
        let balance_str := strip (slice_from rest_of_line second_money) in
        let id_matches := id_pattern_findall before_money in
        if negb (is_nonempty id_matches) then Ok None
        else
          operation_id <- getitem id_matches (-1) ;;
          let description :=
            strip (slice_to before_money (rfind operation_id before_money)) in
          let value := convert_money_to_number value_str in
          let balance := convert_money_to_number balance_str in
          balance <- clean_balance balance ;;
          Ok (Some (mk_fields date description operation_id value balance))
  end.

(** ** The line reconstructor *)

(** One turn of the loop of [combine_broken_lines] on the pair
    [(combined_lines, current_line)]. *)
Definition combine_step (st : list str * str) (line : str) : list str * str :=
  let (combined_lines, current_line) := st in
  match date_pattern_match line with
  | Some _ =>
      (if is_nonempty current_line
       then combined_lines ++ [strip current_line]
       else combined_lines,
       line)
  | None => (combined_lines, current_line ++ [space] ++ line)
  end.

Definition combine_finish (st : list str * str) : list str :=
  let (combined_lines, current_line) := st in
  if is_nonempty current_line
  then combined_lines ++ [strip current_line]
  else combined_lines.

(** The body of [combine_broken_lines] after the split. *)
Definition combine_lines (lines : list str) : list str :=
  combine_finish (fold_left combine_step lines ([], [])).

Definition combine_broken_lines (text : str) : list str :=
  combine_lines (split_lines text).

(** ** The table of records *)

(** The loop of [pdf_text_to_dataframe]: a list of five strings is truthy,
    [None] is not. *)
Fixpoint collect_rows (data : list fields) (combined_lines : list str)
  : result (list fields) :=
  match combined_lines with
  | [] => Ok data
  | line :: more =>
      fs <- extract_fields_from_line line ;;
      match fs with
      | Some row => collect_rows (data ++ [row]) more
      | None => collect_rows data more
      end
  end.

(** The rows handed to [pd.DataFrame], in order. *)
Definition pdf_text_to_dataframe (text : str) : result (list fields) :=
  let combined_lines := combine_broken_lines text in
  collect_rows [] combined_lines.

(** ** Vocabulary of the statements *)

(** The text before the first occurrence of [c] (all of it when there is
    none) and the text after that occurrence. *)
Fixpoint before_char (c : ascii) (x : str) : str :=
  match x with
  | [] => []
  | d :: t => if Ascii.eqb d c then [] else d :: before_char c t
  end.

Fixpoint after_char (c : ascii) (x : str) : str :=
  match x with
  | [] => []
  | d :: t => if Ascii.eqb d c then t else after_char c t
  end.

Definition count_char (c : ascii) (x : str) : nat := count_occ ascii_dec x c.

(** What [clean_balance] returns, without the exception plumbing. *)
Definition clamp_decimals (x : str) : str :=
  match find_char dot x with
  | Some p => firstn (p + 3) x
  | None => x
  end.

(** The number of characters after the first [.] of [x]; 0 without one. *)
Definition decimals_after_dot (x : str) : nat :=
  match find_char dot x with
  | Some p => length x - S p
  | None => 0
  end.

Definition has_digit (x : str) : bool := existsb is_digit x.
Definition all_digits (x : str) : bool := forallb is_digit x.

(** A string that starts with a date token. *)
Definition begins_with_date (x : str) : bool := match_classes date_pattern x.

(** What a flush of the accumulator appends. *)
Definition flush_line (current_line : str) : list str :=
  if is_nonempty current_line then [strip current_line] else [].

(** The accumulator after raw lines that carry no date: every one of them
    is appended behind one space. *)
Definition join_continuations (lines : list str) : str :=
  flat_map (fun l => space :: l) lines.

(** The raw lines before the first one that starts with a date, and the
    raw lines from that one on. *)
Fixpoint pre_date_lines (lines : list str) : list str :=
  match lines with
  | [] => []
  | l :: more => if begins_with_date l then [] else l :: pre_date_lines more
  end.

Fixpoint dated_lines (lines : list str) : list str :=
  match lines with
  | [] => []
  | l :: more => if begins_with_date l then lines else dated_lines more
  end.

(** Character classes that never accept a given character, or white
    space. *)
Definition rejects (c : ascii) (k : ascii -> bool) : Prop :=
  forall d, k d = true -> d <> c.

Definition rejects_space (k : ascii -> bool) : Prop :=
  forall d, k d = true -> is_space d = false.

(** The spans of a logical line: the text after the date token, the text
    before the first marker, the text from the first marker up to the
    second, and the text from the second marker to the end of the line. *)
Definition after_date (line : str) : str := skipn 10 line.

Definition before_money_span (line : str) : str :=
  before_char dollar (after_date line).

Definition value_span (line : str) : str :=
  dollar :: before_char dollar (after_char dollar (after_date line)).

Definition balance_span (line : str) : str :=
  dollar :: after_char dollar (after_char dollar (after_date line)).

(** The three replacements of [convert_money_to_number], in the spec's
    words: drop every [$], drop every [.], turn every [,] into [.]. *)
Definition money_steps (x : str) : str :=
  map (fun c => if Ascii.eqb c comma then dot else c)
      (filter (fun c => negb (Ascii.eqb c dot))
              (filter (fun c => negb (Ascii.eqb c dollar)) x)).

(** [sub in x] for strings. *)
Fixpoint occurs_in (sub x : str) : bool :=
  startswith sub x ||
  match x with
  | [] => false
  | _ :: t => occurs_in sub t
  end.

(** The record a logical line yields, if any, and the records of a list of
    logical lines, in order. *)
Definition record_of (line : str) : list fields :=
  match extract_fields_from_line line with
  | Ok (Some row) => [row]
  | _ => []
  end.

Definition records_of (lines : list str) : list fields :=
  flat_map record_of lines.

(** ** File names and document text *)

Definition backslash : ascii := "\"%char.
Definition dquote : ascii := ascii_of_nat 34.
Definition underscore : ascii := "_"%char.

(** The character class of [sanitize_filename]: backslash, slash, star,
    question mark, colon, double quote, angle brackets and bar. *)
Definition is_forbidden (c : ascii) : bool :=
  existsb (Ascii.eqb c)
    [backslash; "/"%char; "*"%char; "?"%char; ":"%char; dquote;
     "<"%char; ">"%char; "|"%char].

(** [re.sub(cls, '', x)] for a pattern that is one character class: every
    character of the class is removed. *)
Definition re_sub_delete (cls : ascii -> bool) (x : str) : str :=
  filter (fun c => negb (cls c)) x.

Definition sanitize_filename (filename : str) : str :=
  replace space [underscore] (re_sub_delete is_forbidden filename).

(** The f-string that [calculate_period] returns.  [min_date] and
    [max_date] stand for the two [strftime('%d-%m-%Y')] strings; the pandas
    computation that yields them is outside the model. *)
Definition period_name (min_date max_date : str) : str :=
  s "Del_" ++ min_date ++ s "_al_" ++ max_date.

(** [consolidated_filename] of [process_uploaded_files]. *)
Definition consolidated_filename (period : str) : str :=
  s "CONSOLIDADO_MERCADOPAGO_" ++ sanitize_filename period ++ s ".xlsx".

(** The loop of [read_pdf_text] over the pages of a document: [pages] holds
    what [page.get_text()] returns for each page, in order.  Opening the
    file and the [except] branch are outside the model. *)
Definition read_pdf_text (pages : list str) : str :=
  fold_left
    (fun text page_text =>
       if is_nonempty page_text then text ++ page_text ++ [newline] else text)
    pages [].

(** [process_single_file]: the first component is the file name. *)
Definition process_single_file (args : str * str) : result (list fields) :=
  let (file, text) := args in
  pdf_text_to_dataframe text.

(** ** More vocabulary *)

(** A transaction in the raw text: a dated line and the lines that continue
    it; the raw lines it spans and the logical line it becomes. *)
Definition group_lines (g : str * list str) : list str := fst g :: snd g.

Definition group_line (g : str * list str) : str :=
  strip (fst g ++ join_continuations (snd g)).

Definition well_grouped (g : str * list str) : Prop :=
  begins_with_date (fst g) = true /\
  Forall (fun l => begins_with_date l = false) (snd g).

(** A string that is empty or ends with a character that is no digit. *)
Definition ends_without_digit (a : str) : bool :=
  match rev a with
  | [] => true
  | c :: _ => negb (is_digit c)
  end.

Definition all_space (w : str) : bool := forallb is_space w.

(** No character of the class of [sanitize_filename] and no space. *)
Definition is_plain (c : ascii) : bool :=
  negb (is_forbidden c) && negb (Ascii.eqb c space).

(** ["\n".join(lines)] *)
Fixpoint join_lines (lines : list str) : str :=
  match lines with
  | [] => []
  | l :: more =>
      match more with
      | [] => l
      | _ :: _ => l ++ newline :: join_lines more
      end
  end.

(** * Properties *)

(** ** Characters *)

Lemma digit_not_space c : is_digit c = true -> is_space c = false.
Proof.
  destruct c as [[] [] [] [] [] [] [] []]; vm_compute; congruence.
Qed.

Lemma digit_not_dollar c : is_digit c = true -> c <> dollar.
Proof. intros H ->. vm_compute in H. discriminate. Qed.

Lemma digit_not_newline c : is_digit c = true -> c <> newline.
Proof. intros H ->. vm_compute in H. discriminate. Qed.

Lemma dollar_not_space : is_space dollar = false.
Proof. reflexivity. Qed.

Lemma eqb_dec_true (a b : ascii) : Ascii.eqb a b = true <-> a = b.
Proof. apply Ascii.eqb_eq. Qed.

Lemma eqb_dec_false (a b : ascii) : Ascii.eqb a b = false <-> a <> b.
Proof. apply Ascii.eqb_neq. Qed.

(** ** Stripping *)

Lemma lstrip_app_keep pre c x :
  is_space c = false -> lstrip (pre ++ c :: x) = lstrip pre ++ c :: x.
Proof.
  intros Hc. induction pre as [|a pre IH]; simpl.
  - now rewrite Hc.
  - destruct (is_space a); [exact IH | reflexivity].
Qed.

Lemma rstrip_cons_keep c y :
  is_space c = false -> rstrip (c :: y) = c :: rstrip y.
Proof.
  intros Hc. simpl. destruct (rstrip y); [now rewrite Hc | reflexivity].
Qed.

Lemma rstrip_app_keep x c y :
  is_space c = false -> rstrip (x ++ c :: y) = x ++ c :: rstrip y.
Proof.
  intros Hc. induction x as [|a x IH].
  - now apply rstrip_cons_keep.
  - change ((a :: x) ++ c :: y) with (a :: (x ++ c :: y)).
    simpl rstrip. rewrite IH. destruct x; reflexivity.
Qed.

Lemma lstrip_idem x : lstrip (lstrip x) = lstrip x.
Proof.
  induction x as [|a x IH]; simpl; [reflexivity|].
  destruct (is_space a) eqn:E; [exact IH | simpl; now rewrite E].
Qed.

Lemma rstrip_idem x : rstrip (rstrip x) = rstrip x.
Proof.
  induction x as [|a x IH]; simpl; [reflexivity|].
  destruct (rstrip x) as [|b r] eqn:E.
  - destruct (is_space a) eqn:Ea; simpl; [reflexivity | now rewrite Ea].
  - change (rstrip (a :: b :: r)) with
      (match rstrip (b :: r) with
       | [] => if is_space a then [] else [a]
       | t' => a :: t'
       end).
    now rewrite IH.
Qed.

Lemma lstrip_head x c y :
  lstrip x = c :: y -> is_space c = false.
Proof.
  induction x as [|a x IH]; simpl; [discriminate|].
  destruct (is_space a) eqn:E; [exact IH | congruence].
Qed.

Lemma strip_lstrip x : strip (lstrip x) = strip x.
Proof. unfold strip. now rewrite lstrip_idem. Qed.

Lemma strip_cons_keep c y :
  is_space c = false -> strip (c :: y) = c :: rstrip y.
Proof.
  intros Hc. unfold strip. simpl lstrip. rewrite Hc.
  now apply rstrip_cons_keep.
Qed.

(** ** Markers *)

Lemma before_char_clean c x : ~ In c (before_char c x).
Proof.
  induction x as [|d x IH]; simpl; [tauto|].
  destruct (Ascii.eqb d c) eqn:E; simpl; [tauto|].
  apply eqb_dec_false in E. intros [H|H]; [congruence | tauto].
Qed.

Lemma cut_at_char c x :
  0 < count_char c x -> x = before_char c x ++ c :: after_char c x.
Proof.
  unfold count_char. induction x as [|d x IH]; simpl; [lia|].
  destruct (ascii_dec d c) as [->|N].
  - now rewrite Ascii.eqb_refl.
  - intros H. apply eqb_dec_false in N. rewrite N. simpl. f_equal. auto.
Qed.

Lemma count_after_char c x :
  0 < count_char c x -> count_char c x = S (count_char c (after_char c x)).
Proof.
  unfold count_char. induction x as [|d x IH]; simpl; [lia|].
  destruct (ascii_dec d c) as [->|N].
  - now rewrite Ascii.eqb_refl.
  - intros H. apply eqb_dec_false in N. rewrite N. auto.
Qed.

Lemma count_char_app c x y :
  count_char c (x ++ y) = count_char c x + count_char c y.
Proof. apply count_occ_app. Qed.

Lemma count_char_clean c x : ~ In c x -> count_char c x = 0.
Proof. intros H. now apply count_occ_not_In. Qed.

Lemma before_char_app c pre x :
  ~ In c pre -> before_char c (pre ++ c :: x) = pre.
Proof.
  induction pre as [|d pre IH]; simpl; intros H.
  - now rewrite Ascii.eqb_refl.
  - assert (E : Ascii.eqb d c = false) by (apply eqb_dec_false; tauto).
    rewrite E. f_equal. apply IH. tauto.
Qed.

Lemma after_char_app c pre x :
  ~ In c pre -> after_char c (pre ++ c :: x) = x.
Proof.
  induction pre as [|d pre IH]; simpl; intros H.
  - now rewrite Ascii.eqb_refl.
  - assert (E : Ascii.eqb d c = false) by (apply eqb_dec_false; tauto).
    rewrite E. apply IH. tauto.
Qed.

Lemma finditer_from_length c i x :
  length (finditer_from c i x) = count_char c x.
Proof.
  unfold count_char. revert i. induction x as [|d x IH]; intros i; simpl.
  - reflexivity.
  - destruct (ascii_dec d c) as [->|N].
    + rewrite Ascii.eqb_refl. simpl. now rewrite IH.
    + apply eqb_dec_false in N. rewrite N. apply IH.
Qed.

Lemma finditer_from_app c i pre x :
  ~ In c pre ->
  finditer_from c i (pre ++ c :: x) =
  mk_match (i + length pre) (S (i + length pre)) [c]
    :: finditer_from c (S (i + length pre)) x.
Proof.
  revert i. induction pre as [|d pre IH]; intros i H; simpl.
  - rewrite Ascii.eqb_refl. now rewrite Nat.add_0_r.
  - assert (E : Ascii.eqb d c = false) by (apply eqb_dec_false; simpl in H; tauto).
    rewrite E, IH by (simpl in H; tauto).
    now replace (S i + length pre) with (i + S (length pre)) by lia.
Qed.

(** ** Digit runs *)

Lemma digit_runs_none cur x :
  has_digit x = false -> digit_runs cur x = flush_run cur.
Proof.
  unfold has_digit. revert cur. induction x as [|c x IH]; intros cur H; simpl in *.
  - reflexivity.
  - apply orb_false_iff in H as [Hc Hx]. rewrite Hc, (IH [] Hx). simpl.
    apply app_nil_r.
Qed.

Lemma flush_run_cons cur : cur <> [] -> flush_run cur = [cur].
Proof. destruct cur; [congruence | reflexivity]. Qed.

Lemma digit_runs_last x : forall cur,
  all_digits cur = true ->
  cur <> [] \/ has_digit x = true ->
  exists runs a id b,
    digit_runs cur x = runs ++ [id] /\ cur ++ x = a ++ id ++ b /\
    id <> [] /\ all_digits id = true /\ has_digit b = false.
Proof.
  unfold all_digits, has_digit.
  induction x as [|c x IH]; intros cur Hcur Hsome; simpl.
  - destruct Hsome as [Hne|Hd]; [|simpl in Hd; discriminate].
    exists [], [], cur, []. rewrite flush_run_cons by assumption.
    repeat split; auto.
  - destruct (is_digit c) eqn:Ec.
    + destruct (IH (cur ++ [c])) as (runs & a & id & b & H1 & H2 & H3).
      * rewrite forallb_app, Hcur. simpl. now rewrite Ec.
      * left. destruct cur; discriminate.
      * exists runs, a, id, b. split; [exact H1|]. split; [|exact H3].
        rewrite <- H2, <- app_assoc. reflexivity.
    + destruct (existsb is_digit x) eqn:Ex.
      * destruct (IH [] eq_refl (or_intror eq_refl))
          as (runs & a & id & b & H1 & H2 & H3).
        exists (flush_run cur ++ runs), (cur ++ c :: a), id, b.
        rewrite H1, <- app_assoc. split; [reflexivity|]. split; [|exact H3].
        simpl in H2. rewrite H2, <- app_assoc. reflexivity.
      * destruct Hsome as [Hne|Hd]; [|simpl in Hd; rewrite Ec, Ex in Hd; discriminate].
        exists [], [], cur, (c :: x).
        rewrite (digit_runs_none [] x Ex), flush_run_cons by assumption.
        simpl. rewrite Ec, Ex. repeat split; auto.
Qed.

Lemma getitem_last {A} (l : list A) (a : A) : getitem (l ++ [a]) (-1) = Ok a.
Proof.
  unfold getitem. rewrite length_app. simpl length.
  replace (-1 <? 0)%Z with true by reflexivity.
  replace (Z.of_nat (length l + 1) + -1)%Z with (Z.of_nat (length l)) by lia.
  rewrite (proj2 (Z.ltb_ge _ _)), (proj2 (Z.leb_gt _ _)) by lia.
  simpl. rewrite Nat2Z.id, nth_error_app2 by lia.
  now rewrite Nat.sub_diag.
Qed.

(** ** Searching from the right *)

Lemma startswith_app sub r : startswith sub (sub ++ r) = true.
Proof.
  induction sub as [|a sub IH]; simpl; [reflexivity|].
  now rewrite Ascii.eqb_refl.
Qed.

Lemma startswith_length sub : forall x,
  startswith sub x = true -> length sub <= length x.
Proof.
  induction sub as [|a sub IH]; intros [|b x] H; simpl in *;
    try lia; try discriminate.
  apply andb_true_iff in H as [_ H]. apply IH in H. lia.
Qed.

Lemma rfind_range sub x :
  (-1 <= rfind sub x)%Z /\
  (0 <= rfind sub x -> rfind sub x + Z.of_nat (length sub) <= Z.of_nat (length x))%Z.
Proof.
  induction x as [|c x [IH1 IH2]].
  - simpl. destruct sub; simpl; lia.
  - cbn [rfind]. destruct (0 <=? rfind sub x)%Z eqn:E.
    + apply Z.leb_le in E. specialize (IH2 E). simpl length. lia.
    + destruct (startswith sub (c :: x)) eqn:Es.
      * apply startswith_length in Es. lia.
      * lia.
Qed.

Lemma rfind_found a sub b : (0 <= rfind sub (a ++ sub ++ b))%Z.
Proof.
  induction a as [|c a IH].
  - simpl app. destruct (sub ++ b) as [|d r] eqn:E.
    + apply app_eq_nil in E as [-> _]. simpl. lia.
    + cbn [rfind]. destruct (0 <=? rfind sub r)%Z eqn:E0.
      * apply Z.leb_le in E0. lia.
      * rewrite <- E, startswith_app. lia.
  - change ((c :: a) ++ sub ++ b) with (c :: (a ++ sub ++ b)).
    cbn [rfind]. destruct (0 <=? rfind sub (a ++ sub ++ b))%Z eqn:E0; [lia|].
    apply Z.leb_gt in E0. lia.
Qed.

Lemma startswith_short id : forall v b,
  all_digits id = true -> has_digit b = false -> length v < length id ->
  startswith id (v ++ b) = false.
Proof.
  unfold all_digits, has_digit.
  induction id as [|d id IH]; intros v b Hid Hb Hlen; simpl in *; [lia|].
  apply andb_true_iff in Hid as [Hd Hid].
  destruct v as [|c v]; simpl.
  - destruct b as [|c b]; [reflexivity|]. simpl in Hb.
    apply orb_false_iff in Hb as [Hc _].
    assert (N : Ascii.eqb d c = false) by (apply eqb_dec_false; congruence).
    now rewrite N.
  - simpl in Hlen. rewrite (IH v b) by (auto; lia). apply andb_false_r.
Qed.

Lemma rfind_short id : forall v b,
  all_digits id = true -> has_digit b = false -> length v < length id ->
  rfind id (v ++ b) = (-1)%Z.
Proof.
  intros v b Hid Hb. induction v as [|c v IH]; intros Hlen.
  - simpl app.
    assert (Hne : id <> []) by (destruct id; [simpl in *; lia | discriminate]).
    clear Hlen. induction b as [|c b IHb].
    + simpl. destruct id; [congruence | reflexivity].
    + unfold has_digit in Hb. simpl in Hb.
      apply orb_false_iff in Hb as [Hc Hb]. cbn [rfind].
      rewrite (IHb Hb). simpl (0 <=? -1)%Z.
      assert (E : startswith id ([] ++ c :: b) = false).
      { apply startswith_short; auto.
        - unfold has_digit. simpl. now rewrite Hc.
        - destruct id; [congruence | simpl; lia]. }
      simpl app in E. now rewrite E.
  - simpl in Hlen. change ((c :: v) ++ b) with (c :: (v ++ b)). cbn [rfind].
    rewrite IH by lia. simpl (0 <=? -1)%Z.
    assert (E : startswith id ((c :: v) ++ b) = false)
      by (apply startswith_short; auto).
    simpl app in E. now rewrite E.
Qed.

Lemma rfind_last_run a id b :
  id <> [] -> all_digits id = true -> has_digit b = false ->
  rfind id (a ++ id ++ b) = Z.of_nat (length a).
Proof.
  intros Hne Hid Hb. induction a as [|c a IH].
  - simpl app. destruct id as [|d id]; [congruence|]. simpl length.
    change ((d :: id) ++ b) with (d :: (id ++ b)). cbn [rfind].
    rewrite (rfind_short (d :: id) id b) by (auto; simpl; lia).
    simpl (0 <=? -1)%Z.
    change (d :: id ++ b) with ((d :: id) ++ b). now rewrite startswith_app.
  - change ((c :: a) ++ id ++ b) with (c :: (a ++ id ++ b)). cbn [rfind].
    rewrite IH. destruct (0 <=? Z.of_nat (length a))%Z eqn:E; [simpl length; lia|].
    apply Z.leb_gt in E. lia.
Qed.

(** ** Clamping *)

Lemma contains_find c x :
  contains c x = match find_char c x with Some _ => true | None => false end.
Proof.
  unfold contains. induction x as [|d x IH]; simpl; [reflexivity|].
  rewrite (Ascii.eqb_sym c d). destruct (Ascii.eqb d c); [reflexivity|].
  rewrite IH. now destruct (find_char c x).
Qed.

Lemma find_char_lt c x p : find_char c x = Some p -> p < length x.
Proof.
  revert p. induction x as [|d x IH]; intros p; simpl; [discriminate|].
  destruct (Ascii.eqb d c).
  - intros [= <-]. lia.
  - destruct (find_char c x) as [q|]; [|discriminate].
    intros [= <-]. specialize (IH q eq_refl). lia.
Qed.

Lemma find_char_firstn c x : forall p k,
  find_char c x = Some p -> p < k -> find_char c (firstn k x) = Some p.
Proof.
  induction x as [|d x IH]; intros p k; simpl; [discriminate|].
  destruct k as [|k]; [lia|]. simpl.
  destruct (Ascii.eqb d c); [auto|].
  destruct (find_char c x) as [q|]; [|discriminate].
  intros [= <-] Hk. now rewrite (IH q k eq_refl) by lia.
Qed.

Lemma clean_balance_ok x : clean_balance x = Ok (clamp_decimals x).
Proof.
  unfold clean_balance, clamp_decimals, index. rewrite contains_find.
  destruct (find_char dot x) as [p|]; [|reflexivity].
  simpl. destruct (p + 3 <? length x) eqn:E; [reflexivity|].
  apply Nat.ltb_ge in E. now rewrite firstn_all2.
Qed.

Lemma clamp_decimals_idem x :
  clamp_decimals (clamp_decimals x) = clamp_decimals x.
Proof.
  unfold clamp_decimals at 2 3. destruct (find_char dot x) as [p|] eqn:E.
  - unfold clamp_decimals. rewrite (find_char_firstn dot x p (p + 3) E) by lia.
    rewrite firstn_firstn. f_equal. lia.
  - unfold clamp_decimals. now rewrite E.
Qed.

Lemma clamp_decimals_bound x : decimals_after_dot (clamp_decimals x) <= 2.
Proof.
  unfold decimals_after_dot, clamp_decimals.
  destruct (find_char dot x) as [p|] eqn:E.
  - rewrite (find_char_firstn dot x p (p + 3) E) by lia.
    rewrite length_firstn. lia.
  - rewrite E. lia.
Qed.

(** ** Subscripts and slices *)

Lemma getitem_0 {A} (a : A) l : getitem (a :: l) 0 = Ok a.
Proof.
  unfold getitem. cbv zeta. change (0 <? 0)%Z with false. cbv iota.
  rewrite (proj2 (Z.leb_gt _ _)) by (simpl length; lia). reflexivity.
Qed.

Lemma getitem_1 {A} (a b : A) l : getitem (a :: b :: l) 1 = Ok b.
Proof.
  unfold getitem. cbv zeta. change (1 <? 0)%Z with false. cbv iota.
  rewrite (proj2 (Z.leb_gt _ _)) by (simpl length; lia). reflexivity.
Qed.

Lemma firstn_length_app {A} (a b : list A) : firstn (length a) (a ++ b) = a.
Proof. induction a; simpl; congruence. Qed.

Lemma skipn_length_app {A} (a b : list A) : skipn (length a) (a ++ b) = b.
Proof. induction a; simpl; congruence. Qed.

Lemma slice_to_length_app (a b : str) :
  slice_to (a ++ b) (Z.of_nat (length a)) = a.
Proof.
  unfold slice_to. rewrite (proj2 (Z.ltb_ge _ _)) by lia.
  rewrite Nat2Z.id. apply firstn_length_app.
Qed.

(** ** Stripping keeps what is not white space *)

Lemma In_lstrip c x : In c (lstrip x) -> In c x.
Proof.
  induction x as [|a x IH]; simpl; [tauto|].
  destruct (is_space a); simpl; tauto.
Qed.

Lemma has_digit_lstrip x : has_digit (lstrip x) = has_digit x.
Proof.
  unfold has_digit. induction x as [|a x IH]; simpl; [reflexivity|].
  destruct (is_space a) eqn:E; [|reflexivity].
  rewrite IH. destruct (is_digit a) eqn:Ed; [|reflexivity].
  apply digit_not_space in Ed. congruence.
Qed.

Lemma has_digit_rstrip x : has_digit (rstrip x) = has_digit x.
Proof.
  unfold has_digit. induction x as [|a x IH]; simpl; [reflexivity|].
  rewrite <- IH. destruct (rstrip x) as [|b r]; [|reflexivity].
  simpl. destruct (is_space a) eqn:E; simpl; [|reflexivity].
  destruct (is_digit a) eqn:Ed; [|reflexivity].
  apply digit_not_space in Ed. congruence.
Qed.

Lemma has_digit_strip x : has_digit (strip x) = has_digit x.
Proof. unfold strip. now rewrite has_digit_rstrip, has_digit_lstrip. Qed.

(** ** The extractor, case by case *)

Lemma date_pattern_match_eq line :
  date_pattern_match line =
  if match_classes date_pattern line
  then Some (mk_match 0 10 (firstn 10 line)) else None.
Proof. reflexivity. Qed.

Lemma strip_cut pre mid post :
  strip (pre ++ dollar :: mid ++ dollar :: post) =
  lstrip pre ++ dollar :: mid ++ dollar :: rstrip post.
Proof.
  unfold strip. rewrite lstrip_app_keep by apply dollar_not_space.
  change (lstrip pre ++ dollar :: mid ++ dollar :: post)
    with (lstrip pre ++ (dollar :: mid) ++ dollar :: post).
  rewrite app_assoc, rstrip_app_keep by apply dollar_not_space.
  now rewrite <- app_assoc.
Qed.

Lemma extract_no_date line :
  match_classes date_pattern line = false ->
  extract_fields_from_line line = Ok None.
Proof.
  intros H. unfold extract_fields_from_line, date_pattern_search.
  now rewrite date_pattern_match_eq, H.
Qed.

Lemma count_char_lstrip c x :
  is_space c = false -> count_char c (lstrip x) = count_char c x.
Proof.
  unfold count_char. intros Hc.
  induction x as [|a y IH]; [reflexivity|]. simpl.
  destruct (is_space a) eqn:Ea; [|reflexivity].
  destruct (ascii_dec a c) as [->|]; [congruence | exact IH].
Qed.

Lemma count_char_rstrip c x :
  is_space c = false -> count_char c (rstrip x) = count_char c x.
Proof.
  unfold count_char. intros Hc.
  induction x as [|a y IH]; [reflexivity|].
  simpl rstrip. destruct (rstrip y) as [|b r] eqn:Er.
  - destruct (is_space a) eqn:Ea.
    + simpl in *. destruct (ascii_dec a c) as [->|]; [congruence | exact IH].
    + simpl in *. destruct (ascii_dec a c); now rewrite <- IH.
  - simpl in *. destruct (ascii_dec a c); now rewrite <- IH.
Qed.

Lemma count_char_strip c x :
  is_space c = false -> count_char c (strip x) = count_char c x.
Proof.
  intros Hc. unfold strip.
  now rewrite count_char_rstrip, count_char_lstrip.
Qed.

Lemma extract_few_markers line :
  match_classes date_pattern line = true ->
  count_char dollar (skipn 10 line) < 2 ->
  extract_fields_from_line line = Ok None.
Proof.
  intros H Hc. unfold extract_fields_from_line, date_pattern_search.
  rewrite date_pattern_match_eq, H. cbn [m_end m_group]. unfold slice_from.
  unfold money_pattern_finditer.
  rewrite finditer_from_length, count_char_strip by reflexivity.
  now rewrite (proj2 (Nat.ltb_lt _ _)).
Qed.

Lemma extract_cut line pre mid post :
  match_classes date_pattern line = true ->
  skipn 10 line = pre ++ dollar :: mid ++ dollar :: post ->
  ~ In dollar pre -> ~ In dollar mid ->
  (has_digit pre = false /\ extract_fields_from_line line = Ok None) \/
  (exists a id b,
     has_digit pre = true /\
     strip pre = a ++ id ++ b /\ id <> [] /\ all_digits id = true /\
     has_digit b = false /\
     extract_fields_from_line line =
     Ok (Some (mk_fields
                 (firstn 10 line) (strip a) id
                 (convert_money_to_number (strip (dollar :: mid)))
                 (clamp_decimals
                    (convert_money_to_number (strip (dollar :: post))))))).
Proof.
  intros H Hcut Hpre Hmid.
  unfold extract_fields_from_line, date_pattern_search.
  rewrite date_pattern_match_eq, H. cbn [m_end m_group]. unfold slice_from.
  rewrite Hcut, strip_cut. unfold money_pattern_finditer.
  assert (Hlp : ~ In dollar (lstrip pre)) by (intros Hin; apply Hpre, In_lstrip, Hin).
  rewrite finditer_from_app by exact Hlp.
  rewrite finditer_from_app by exact Hmid.
  cbn [length Nat.ltb Nat.leb]. rewrite getitem_0, getitem_1.
  cbn [bind m_start Nat.add]. unfold slice. rewrite Nat.sub_0_r.
  rewrite skipn_O, firstn_length_app, strip_lstrip.
  replace (S (length (lstrip pre) + length mid) - length (lstrip pre))
    with (length (dollar :: mid)) by (cbn [length]; lia).
  rewrite skipn_length_app.
  change (dollar :: mid ++ dollar :: rstrip post)
    with ((dollar :: mid) ++ dollar :: rstrip post).
  rewrite firstn_length_app.
  replace (S (length (lstrip pre) + length mid))
    with (length (lstrip pre ++ dollar :: mid))
    by (rewrite length_app; cbn [length]; lia).
  rewrite app_assoc, skipn_length_app.
  rewrite (strip_cons_keep dollar (rstrip post)) by apply dollar_not_space.
  rewrite rstrip_idem, <- (strip_cons_keep dollar post) by apply dollar_not_space.
  unfold id_pattern_findall.
  destruct (has_digit pre) eqn:Hd.
  - right. pose proof Hd as Hd'. rewrite <- has_digit_strip in Hd.
    destruct (digit_runs_last (strip pre) [] eq_refl (or_intror Hd))
      as (runs & a & id & b & H1 & H2 & H3 & H4 & H5).
    simpl app in H2. exists a, id, b. repeat split; auto.
    rewrite H1. destruct runs; simpl is_nonempty; cbn [negb];
      rewrite getitem_last; cbn [bind];
      rewrite H2, rfind_last_run, slice_to_length_app, clean_balance_ok by auto;
      reflexivity.
  - left. split; [reflexivity|].
    rewrite <- has_digit_strip in Hd. now rewrite digit_runs_none.
Qed.

(** ** Lines *)

Lemma split_lines_cons x : exists l ls, split_lines x = l :: ls.
Proof.
  destruct x as [|c x]; simpl; [now eauto|].
  destruct (Ascii.eqb c newline); [now eauto|].
  destruct (split_lines x); eauto.
Qed.

Lemma split_lines_app a b :
  split_lines (a ++ newline :: b) = split_lines a ++ split_lines b.
Proof.
  induction a as [|c a IH]; simpl.
  - reflexivity.
  - destruct (Ascii.eqb c newline); [now rewrite IH|].
    rewrite IH. destruct (split_lines_cons a) as (l & ls & ->). reflexivity.
Qed.

Lemma date_pattern_no_newline : Forall (rejects newline) date_pattern.
Proof.
  unfold date_pattern.
  repeat constructor; intros d H;
    first [ now apply digit_not_newline
          | apply eqb_dec_true in H; subst d; discriminate ].
Qed.

Lemma date_pattern_no_space : Forall rejects_space date_pattern.
Proof.
  unfold date_pattern.
  repeat constructor; intros d H;
    first [ now apply digit_not_space
          | apply eqb_dec_true in H; subst d; reflexivity ].
Qed.

Lemma match_classes_first_line p : forall x,
  Forall (rejects newline) p -> match_classes p x = true ->
  exists l ls, split_lines x = l :: ls /\ match_classes p l = true.
Proof.
  induction p as [|k p IH]; intros x Hp H.
  - destruct (split_lines_cons x) as (l & ls & E). exists l, ls. now split.
  - destruct x as [|c x]; simpl in H; [discriminate|].
    apply andb_true_iff in H as [Hk H]. inversion Hp as [|? ? Hk' Hp']; subst.
    destruct (IH x Hp' H) as (l & ls & E & Hl).
    exists (c :: l), ls. simpl.
    assert (N : Ascii.eqb c newline = false)
      by (apply eqb_dec_false; now apply Hk').
    rewrite N, E. split; [reflexivity|]. now rewrite Hk.
Qed.

Lemma match_classes_app p : forall x y,
  match_classes p x = true -> match_classes p (x ++ y) = true.
Proof.
  induction p as [|k p IH]; intros [|c x] y H; simpl in *;
    try reflexivity; try discriminate.
  apply andb_true_iff in H as [Hk H]. now rewrite Hk, IH.
Qed.

Lemma match_classes_rstrip p : forall x,
  Forall rejects_space p -> match_classes p x = true ->
  match_classes p (rstrip x) = true.
Proof.
  induction p as [|k p IH]; intros x Hp H.
  - now destruct (rstrip x).
  - destruct x as [|c x]; simpl in H; [discriminate|].
    apply andb_true_iff in H as [Hk H]. inversion Hp as [|? ? Hk' Hp']; subst.
    rewrite rstrip_cons_keep by now apply Hk'.
    simpl. now rewrite Hk, IH.
Qed.

Lemma begins_with_date_strip x :
  begins_with_date x = true -> begins_with_date (strip x) = true.
Proof.
  unfold begins_with_date, strip. intros H.
  assert (E : lstrip x = x).
  { destruct x as [|c x]; [reflexivity|]. simpl in *.
    apply andb_true_iff in H as [Hc _]. apply digit_not_space in Hc.
    now rewrite Hc. }
  rewrite E. apply match_classes_rstrip; [apply date_pattern_no_space | exact H].
Qed.

Lemma begins_with_date_nonempty x :
  begins_with_date x = true -> is_nonempty x = true.
Proof. destruct x; [discriminate | reflexivity]. Qed.

(** ** The accumulator loop *)

Lemma combine_step_dated comb cur line :
  begins_with_date line = true ->
  combine_step (comb, cur) line = (comb ++ flush_line cur, line).
Proof.
  unfold begins_with_date, combine_step, flush_line. intros H.
  rewrite date_pattern_match_eq, H.
  destruct (is_nonempty cur); [reflexivity | now rewrite app_nil_r].
Qed.

Lemma combine_step_continued comb cur line :
  begins_with_date line = false ->
  combine_step (comb, cur) line = (comb, cur ++ space :: line).
Proof.
  unfold begins_with_date, combine_step. intros H.
  now rewrite date_pattern_match_eq, H.
Qed.

Lemma combine_finish_eq comb cur :
  combine_finish (comb, cur) = comb ++ flush_line cur.
Proof.
  unfold combine_finish, flush_line.
  destruct (is_nonempty cur); [reflexivity | now rewrite app_nil_r].
Qed.

Lemma combine_from lines : forall comb cur,
  combine_finish (fold_left combine_step lines (comb, cur)) =
  comb ++ combine_finish (fold_left combine_step lines ([], cur)).
Proof.
  induction lines as [|l lines IH]; intros comb cur.
  - cbn [fold_left]. rewrite !combine_finish_eq. reflexivity.
  - cbn [fold_left]. destruct (begins_with_date l) eqn:E.
    + rewrite !combine_step_dated by exact E.
      rewrite (IH (comb ++ flush_line cur)), (IH ([] ++ flush_line cur)).
      now rewrite <- app_assoc.
    + rewrite !combine_step_continued by exact E. apply IH.
Qed.

Lemma combine_restart d rest comb cur :
  begins_with_date d = true ->
  combine_finish (fold_left combine_step (d :: rest) (comb, cur)) =
  comb ++ flush_line cur ++ combine_lines (d :: rest).
Proof.
  intros H. unfold combine_lines. cbn [fold_left].
  rewrite !combine_step_dated by exact H.
  rewrite combine_from, <- app_assoc. reflexivity.
Qed.

Lemma combine_lines_app l1 d rest :
  begins_with_date d = true ->
  combine_lines (l1 ++ d :: rest) = combine_lines l1 ++ combine_lines (d :: rest).
Proof.
  intros H. unfold combine_lines at 1 2. rewrite fold_left_app.
  destruct (fold_left combine_step l1 ([], [])) as [comb cur].
  rewrite combine_restart by exact H.
  now rewrite combine_finish_eq, <- app_assoc.
Qed.

Lemma combine_pre_date lines : forall comb cur,
  fold_left combine_step (pre_date_lines lines) (comb, cur) =
  (comb, cur ++ join_continuations (pre_date_lines lines)).
Proof.
  unfold join_continuations.
  induction lines as [|l lines IH]; intros comb cur; cbn [pre_date_lines].
  - cbn [fold_left flat_map]. now rewrite app_nil_r.
  - destruct (begins_with_date l) eqn:E; cbn [fold_left flat_map].
    + now rewrite app_nil_r.
    + rewrite combine_step_continued by exact E. rewrite IH.
      now rewrite <- app_assoc.
Qed.

Lemma lines_cut lines : lines = pre_date_lines lines ++ dated_lines lines.
Proof.
  induction lines as [|l lines IH]; simpl; [reflexivity|].
  destruct (begins_with_date l); simpl; congruence.
Qed.

Lemma dated_lines_head lines :
  dated_lines lines = [] \/
  exists d rest, dated_lines lines = d :: rest /\ begins_with_date d = true.
Proof.
  induction lines as [|l lines IH]; simpl; [now left|].
  destruct (begins_with_date l) eqn:E; [right; eauto | exact IH].
Qed.

Lemma combine_keeps_dates lines : forall comb cur,
  Forall (fun l => begins_with_date l = true) comb ->
  begins_with_date cur = true ->
  Forall (fun l => begins_with_date l = true)
         (combine_finish (fold_left combine_step lines (comb, cur))).
Proof.
  induction lines as [|l lines IH]; intros comb cur Hcomb Hcur.
  - cbn [fold_left]. rewrite combine_finish_eq.
    apply Forall_app. split; [exact Hcomb|].
    unfold flush_line. rewrite begins_with_date_nonempty by exact Hcur.
    constructor; [now apply begins_with_date_strip | constructor].
  - cbn [fold_left]. destruct (begins_with_date l) eqn:E.
    + rewrite combine_step_dated by exact E. apply IH; [|exact E].
      apply Forall_app. split; [exact Hcomb|].
      unfold flush_line. rewrite begins_with_date_nonempty by exact Hcur.
      constructor; [now apply begins_with_date_strip | constructor].
    + rewrite combine_step_continued by exact E. apply IH; [exact Hcomb|].
      now apply match_classes_app.
Qed.

Lemma combine_dated d rest :
  begins_with_date d = true ->
  Forall (fun l => begins_with_date l = true) (combine_lines (d :: rest)).
Proof.
  intros H. unfold combine_lines. cbn [fold_left].
  rewrite combine_step_dated by exact H. simpl app.
  apply combine_keeps_dates; [constructor | exact H].
Qed.

(** ** Spans *)

Lemma cut_twice x :
  2 <= count_char dollar x ->
  x = before_char dollar x ++ dollar ::
      before_char dollar (after_char dollar x) ++ dollar ::
      after_char dollar (after_char dollar x).
Proof.
  intros H.
  assert (H1 : 0 < count_char dollar x) by lia.
  pose proof (count_after_char dollar x H1) as E.
  assert (H2 : 0 < count_char dollar (after_char dollar x)) by lia.
  rewrite (cut_at_char dollar x H1) at 1.
  now rewrite (cut_at_char dollar (after_char dollar x) H2) at 1.
Qed.

Lemma extract_spans line :
  begins_with_date line = true ->
  2 <= count_char dollar (after_date line) ->
  (has_digit (before_money_span line) = false /\
   extract_fields_from_line line = Ok None) \/
  (exists a id b,
     has_digit (before_money_span line) = true /\
     strip (before_money_span line) = a ++ id ++ b /\ id <> [] /\
     all_digits id = true /\ has_digit b = false /\
     extract_fields_from_line line =
     Ok (Some (mk_fields
                 (firstn 10 line) (strip a) id
                 (convert_money_to_number (strip (value_span line)))
                 (clamp_decimals
                    (convert_money_to_number (strip (balance_span line))))))).
Proof.
  intros Hd Hc. unfold before_money_span, value_span, balance_span.
  apply extract_cut.
  - exact Hd.
  - now apply cut_twice.
  - apply before_char_clean.
  - apply before_char_clean.
Qed.

Lemma extract_total line :
  extract_fields_from_line line = Ok None \/
  exists row, extract_fields_from_line line = Ok (Some row).
Proof.
  destruct (begins_with_date line) eqn:Hd.
  - destruct (le_lt_dec 2 (count_char dollar (after_date line))) as [Hc|Hc].
    + destruct (extract_spans line Hd Hc) as [[_ E]|(a & id & b & _ & _ & _ & _ & _ & E)];
        [now left | right; eauto].
    + left. now apply extract_few_markers.
  - left. now apply extract_no_date.
Qed.

(** ** Rows *)

Lemma collect_rows_eq lines : forall data,
  collect_rows data lines = Ok (data ++ records_of lines).
Proof.
  unfold records_of.
  induction lines as [|l lines IH]; intros data; cbn [collect_rows flat_map].
  - now rewrite app_nil_r.
  - unfold record_of at 1.
    destruct (extract_total l) as [E|(row & E)]; rewrite E; cbn [bind].
    + apply IH.
    + rewrite IH, <- app_assoc. reflexivity.
Qed.

Lemma records_of_app l1 l2 :
  records_of (l1 ++ l2) = records_of l1 ++ records_of l2.
Proof. apply flat_map_app. Qed.

(** ** Replacements *)

Lemma replace_delete c x :
  replace c [] x = filter (fun d => negb (Ascii.eqb d c)) x.
Proof.
  unfold replace. induction x as [|d x IH]; simpl; [reflexivity|].
  destruct (Ascii.eqb d c); simpl; now rewrite IH.
Qed.

Lemma replace_single c e x :
  replace c [e] x = map (fun d => if Ascii.eqb d c then e else d) x.
Proof.
  unfold replace. induction x as [|d x IH]; simpl; [reflexivity|].
  destruct (Ascii.eqb d c); simpl; now rewrite IH.
Qed.

Lemma convert_money_steps x :
  convert_money_to_number x = strip (money_steps x).
Proof.
  unfold convert_money_to_number, money_steps.
  now rewrite !replace_delete, replace_single.
Qed.

Lemma In_rstrip c x : In c (rstrip x) -> In c x.
Proof.
  induction x as [|a x IH]; simpl; [tauto|].
  destruct (rstrip x) as [|b r].
  - destruct (is_space a); simpl; tauto.
  - intros [H|H]; [now left | right; now apply IH].
Qed.

Lemma In_strip c x : In c (strip x) -> In c x.
Proof. intros H. now apply In_lstrip, In_rstrip. Qed.

Lemma money_steps_clean x :
  ~ In dollar (money_steps x) /\ ~ In comma (money_steps x).
Proof.
  unfold money_steps. split; intros H; apply in_map_iff in H as (c & E & Hin).
  - apply filter_In in Hin as [Hin _]. apply filter_In in Hin as [_ Hc].
    destruct (Ascii.eqb c comma); [discriminate|]. subst c. discriminate.
  - destruct (Ascii.eqb c comma) eqn:Ec; [discriminate|].
    apply eqb_dec_false in Ec. congruence.
Qed.

Lemma money_steps_dots x :
  count_char dot (money_steps x) = count_char comma x.
Proof.
  unfold money_steps, count_char. induction x as [|c x IH]; [reflexivity|].
  cbn [filter].
  destruct (ascii_dec c dollar) as [->|Nd]; [exact IH|].
  apply eqb_dec_false in Nd. rewrite Nd. cbn [negb filter].
  destruct (ascii_dec c dot) as [->|Nt]; [exact IH|].
  pose proof Nt as Nt'. apply eqb_dec_false in Nt'. rewrite Nt'. cbn [negb map].
  destruct (ascii_dec c comma) as [->|Nc].
  - simpl. now rewrite IH.
  - pose proof Nc as Nc'. apply eqb_dec_false in Nc'. rewrite Nc'.
    cbn [count_occ]. destruct (ascii_dec c dot); [congruence|].
    destruct (ascii_dec c comma); [congruence | exact IH].
Qed.

(** ** The operation id is the last digit run *)

Lemma digit_runs_last_maximal x : forall cur,
  all_digits cur = true ->
  cur <> [] \/ has_digit x = true ->
  exists runs a id b,
    digit_runs cur x = runs ++ [id] /\ cur ++ x = a ++ id ++ b /\
    id <> [] /\ all_digits id = true /\ has_digit b = false /\
    ends_without_digit a = true.
Proof.
  unfold all_digits, has_digit.
  induction x as [|c x IH]; intros cur Hcur Hsome; simpl.
  - destruct Hsome as [Hne|Hd]; [|simpl in Hd; discriminate].
    exists [], [], cur, []. rewrite flush_run_cons by assumption.
    repeat split; auto.
  - destruct (is_digit c) eqn:Ec.
    + destruct (IH (cur ++ [c])) as (runs & a & id & b & H1 & H2 & H3).
      * rewrite forallb_app, Hcur. simpl. now rewrite Ec.
      * left. destruct cur; discriminate.
      * exists runs, a, id, b. split; [exact H1|]. split; [|exact H3].
        rewrite <- H2, <- app_assoc. reflexivity.
    + destruct (existsb is_digit x) eqn:Ex.
      * destruct (IH [] eq_refl (or_intror eq_refl))
          as (runs & a & id & b & H1 & H2 & H3 & H4 & H5 & H6).
        exists (flush_run cur ++ runs), (cur ++ c :: a), id, b.
        rewrite H1, <- app_assoc. split; [reflexivity|].
        split; [simpl in H2; rewrite H2, <- app_assoc; reflexivity|].
        repeat split; auto.
        unfold ends_without_digit in *. rewrite rev_app_distr. cbn [rev].
        rewrite <- app_assoc. cbn [app].
        destruct (rev a); cbn [app]; [now rewrite Ec | exact H6].
      * destruct Hsome as [Hne|Hd]; [|simpl in Hd; rewrite Ec, Ex in Hd; discriminate].
        exists [], [], cur, (c :: x).
        rewrite (digit_runs_none [] x Ex), flush_run_cons by assumption.
        simpl. rewrite Ec, Ex. repeat split; auto.
Qed.

Lemma last_cases {A} (l : list A) : l = [] \/ exists rs r, l = rs ++ [r].
Proof.
  induction l as [|r rs _] using rev_ind; [now left | right; eauto].
Qed.

Lemma extract_cut_runs line pre mid post :
  match_classes date_pattern line = true ->
  skipn 10 line = pre ++ dollar :: mid ++ dollar :: post ->
  ~ In dollar pre -> ~ In dollar mid ->
  extract_fields_from_line line =
  match rev (id_pattern_findall (strip pre)) with
  | [] => Ok None
  | id :: _ =>
      Ok (Some (mk_fields
                  (firstn 10 line)
                  (strip (slice_to (strip pre) (rfind id (strip pre))))
                  id
                  (convert_money_to_number (strip (dollar :: mid)))
                  (clamp_decimals
                     (convert_money_to_number (strip (dollar :: post))))))
  end.
Proof.
  intros H Hcut Hpre Hmid.
  unfold extract_fields_from_line, date_pattern_search.
  rewrite date_pattern_match_eq, H. cbn [m_end m_group]. unfold slice_from.
  rewrite Hcut, strip_cut. unfold money_pattern_finditer.
  assert (Hlp : ~ In dollar (lstrip pre)) by (intros Hin; apply Hpre, In_lstrip, Hin).
  rewrite finditer_from_app by exact Hlp.
  rewrite finditer_from_app by exact Hmid.
  cbn [length Nat.ltb Nat.leb]. rewrite getitem_0, getitem_1.
  cbn [bind m_start Nat.add]. unfold slice. rewrite Nat.sub_0_r.
  rewrite skipn_O, firstn_length_app, strip_lstrip.
  replace (S (length (lstrip pre) + length mid) - length (lstrip pre))
    with (length (dollar :: mid)) by (cbn [length]; lia).
  rewrite skipn_length_app.
  change (dollar :: mid ++ dollar :: rstrip post)
    with ((dollar :: mid) ++ dollar :: rstrip post).
  rewrite firstn_length_app.
  replace (S (length (lstrip pre) + length mid))
    with (length (lstrip pre ++ dollar :: mid))
    by (rewrite length_app; cbn [length]; lia).
  rewrite app_assoc, skipn_length_app.
  rewrite (strip_cons_keep dollar (rstrip post)) by apply dollar_not_space.
  rewrite rstrip_idem, <- (strip_cons_keep dollar post) by apply dollar_not_space.
  destruct (last_cases (id_pattern_findall (strip pre))) as [->|(rs & r0 & ->)].
  - reflexivity.
  - rewrite rev_unit.
    replace (is_nonempty (rs ++ [r0])) with true by (now destruct rs).
    cbn [negb]. rewrite getitem_last. cbn [bind].
    now rewrite clean_balance_ok.
Qed.

Lemma match_classes_length p : forall x,
  match_classes p x = true -> length p <= length x.
Proof.
  induction p as [|k p IH]; intros [|c x] H; simpl in *;
    try lia; try discriminate.
  apply andb_true_iff in H as [_ H]. apply IH in H. lia.
Qed.

Lemma extract_record line :
  begins_with_date line = true ->
  2 <= count_char dollar (after_date line) ->
  has_digit (before_money_span line) = true ->
  exists a id b,
    strip (before_money_span line) = a ++ id ++ b /\
    ends_without_digit a = true /\ id <> [] /\ all_digits id = true /\
    has_digit b = false /\
    rfind id (strip (before_money_span line)) = Z.of_nat (length a) /\
    extract_fields_from_line line =
    Ok (Some (mk_fields
                (firstn 10 line) (strip a) id
                (convert_money_to_number (strip (value_span line)))
                (clamp_decimals
                   (convert_money_to_number (strip (balance_span line)))))).
Proof.
  intros Hd Hc Hy.
  pose proof (extract_cut_runs line _ _ _ Hd (cut_twice _ Hc)
                (before_char_clean _ _) (before_char_clean _ _)) as E.
  fold (after_date line) in E. fold (before_money_span line) in E.
  fold (value_span line) in E. fold (balance_span line) in E.
  rewrite <- has_digit_strip in Hy.
  set (before := strip (before_money_span line)) in *.
  unfold id_pattern_findall in E.
  destruct (digit_runs_last_maximal before [] eq_refl (or_intror Hy))
    as (runs & a & id & b & H1 & H2 & H3 & H4 & H5 & H6).
  cbn [app] in H2. rewrite H1, rev_unit in E.
  assert (Hr : rfind id before = Z.of_nat (length a))
    by (rewrite H2; now apply rfind_last_run).
  rewrite Hr in E. rewrite H2 in E at 1. rewrite slice_to_length_app in E.
  exists a, id, b. repeat split; auto.
Qed.

(** * The claims *)

(** C1: a logical line is a no-match exactly when it has no leading date
    token, or fewer than two [$] markers follow the date, or the segment
    before the first marker holds no digit.  Every other line yields a
    record whose five fields are all set from the line: the date is the
    leading token of ten characters; the operation id is the last maximal
    digit run of the trimmed text before the first marker, a non-empty
    digit string; the description is the trimmed text in front of that run;
    the value is the normalized text between the first two markers; the
    balance is [clean_balance] of the normalized text from the second
    marker on.  A no-match line adds no record to the table, wherever it
    stands among the logical lines. *)
Theorem extract_no_match_iff (line : str) :
  (extract_fields_from_line line = Ok None <->
   begins_with_date line = false \/
   count_char dollar (after_date line) < 2 \/
   has_digit (before_money_span line) = false) /\
  (extract_fields_from_line line = Ok None \/
   exists row a b,
     extract_fields_from_line line = Ok (Some row) /\
     f_date row = firstn 10 line /\ length (f_date row) = 10 /\
     strip (before_money_span line) = a ++ f_operation_id row ++ b /\
     ends_without_digit a = true /\ has_digit b = false /\
     f_operation_id row <> [] /\ all_digits (f_operation_id row) = true /\
     f_description row = strip a /\
     f_value row = convert_money_to_number (strip (value_span line)) /\
     clean_balance (convert_money_to_number (strip (balance_span line)))
       = Ok (f_balance row)) /\
  (extract_fields_from_line line = Ok None ->
   forall data before after,
     collect_rows data (before ++ line :: after) =
     collect_rows data (before ++ after)).
Proof.
  assert (Hcases :
    (begins_with_date line = false /\ extract_fields_from_line line = Ok None) \/
    (begins_with_date line = true /\ count_char dollar (after_date line) < 2 /\
     extract_fields_from_line line = Ok None) \/
    (begins_with_date line = true /\ 2 <= count_char dollar (after_date line) /\
     has_digit (before_money_span line) = false /\
     extract_fields_from_line line = Ok None) \/
    (begins_with_date line = true /\ 2 <= count_char dollar (after_date line) /\
     has_digit (before_money_span line) = true /\
     exists row a b,
       extract_fields_from_line line = Ok (Some row) /\
       f_date row = firstn 10 line /\ length (f_date row) = 10 /\
       strip (before_money_span line) = a ++ f_operation_id row ++ b /\
       ends_without_digit a = true /\ has_digit b = false /\
       f_operation_id row <> [] /\ all_digits (f_operation_id row) = true /\
       f_description row = strip a /\
       f_value row = convert_money_to_number (strip (value_span line)) /\
       clean_balance (convert_money_to_number (strip (balance_span line)))
         = Ok (f_balance row))).
  { destruct (begins_with_date line) eqn:Hd.
    - destruct (le_lt_dec 2 (count_char dollar (after_date line))) as [Hc|Hc].
      + destruct (has_digit (before_money_span line)) eqn:Hy.
        * right; right; right. repeat split; auto.
          destruct (extract_record line Hd Hc Hy)
            as (a & id & b & H1 & H2 & H3 & H4 & H5 & _ & E).
          assert (Hlen : length (firstn 10 line) = 10).
          { rewrite length_firstn.
            pose proof (match_classes_length date_pattern line Hd) as Hl.
            simpl in Hl. lia. }
          eexists. exists a, b. split; [exact E|].
          cbn [f_date f_description f_operation_id f_value f_balance].
          split; [reflexivity|]. split; [exact Hlen|].
          repeat split; auto. apply clean_balance_ok.
        * right; right; left.
          destruct (extract_spans line Hd Hc)
            as [[_ E]|(a & id & b & Hy' & _)]; [auto | congruence].
      + right; left. repeat split; auto. now apply extract_few_markers.
    - left. split; [reflexivity|]. now apply extract_no_date. }
  split; [|split].
  - split.
    + intros E.
      destruct Hcases
        as [[H _]|[(_ & H & _)|[(_ & _ & H & _)|(_ & _ & _ & row & a & b & E' & _)]]];
        auto; congruence.
    + intros H.
      destruct Hcases as [[_ E]|[(_ & _ & E)|[(_ & _ & _ & E)|(Hd & Hc & Hy & _)]]];
        auto.
      destruct H as [H|[H|H]]; [congruence | lia | congruence].
  - destruct Hcases as [[_ E]|[(_ & _ & E)|[(_ & _ & _ & E)|(_ & _ & _ & E)]]];
      auto.
  - intros E data before after.
    rewrite !collect_rows_eq, !records_of_app. do 3 f_equal.
    unfold records_of. cbn [flat_map]. unfold record_of at 1. now rewrite E.
Qed.

Lemma extract_no_match_iff_witness :
  extract_fields_from_line (s "saldo inicial") = Ok None /\
  collect_rows [] ([s "01-03-2024 A 1 $1,00$2,00"] ++ s "saldo inicial" :: []) =
  collect_rows [] ([s "01-03-2024 A 1 $1,00$2,00"] ++ []).
Proof.
  split; [reflexivity|].
  apply (proj2 (proj2 (extract_no_match_iff (s "saldo inicial")))).
  reflexivity.
Defined.

(** C2: the sample line of the spec yields the sample record: the date is
    the leading token, the operation id is the digit run that ends the text
    before the first marker, the description is the text before that run,
    and the two money spans are normalized. *)
Theorem extract_sample_line :
  let line := s "01-03-2024 Pago de servicios 987654 $1.000,00$5.432,10" in
  extract_fields_from_line line =
    Ok (Some (mk_fields (s "01-03-2024") (s "Pago de servicios") (s "987654")
                        (s "1000.00") (s "5432.10"))) /\
  line = s "01-03-2024" ++ s " Pago de servicios " ++ s "987654" ++ s " "
         ++ s "$1.000,00" ++ s "$5.432,10" /\
  before_money_span line = s " Pago de servicios 987654 " /\
  id_pattern_findall (s "Pago de servicios 987654") = [s "987654"] /\
  rfind (s "987654") (s "Pago de servicios 987654") = 18%Z /\
  convert_money_to_number (s "$1.000,00") = s "1000.00" /\
  convert_money_to_number (s "$5.432,10") = s "5432.10".
Proof. vm_compute. repeat split. Qed.

(** ** A trailing empty line *)

Lemma rstrip_app_space y : rstrip (y ++ [space]) = rstrip y.
Proof.
  induction y as [|a y IH]; [reflexivity|].
  change ((a :: y) ++ [space]) with (a :: (y ++ [space])).
  simpl rstrip. now rewrite IH.
Qed.

Lemma lstrip_app_space x :
  lstrip (x ++ [space]) = lstrip x ++ [space] \/
  (lstrip (x ++ [space]) = [] /\ lstrip x = []).
Proof.
  induction x as [|a x IH]; simpl.
  - right. now split.
  - destruct (is_space a); [exact IH | now left].
Qed.

Lemma strip_app_space x : strip (x ++ [space]) = strip x.
Proof.
  unfold strip. destruct (lstrip_app_space x) as [E|[E1 E2]].
  - now rewrite E, rstrip_app_space.
  - now rewrite E1, E2.
Qed.

Lemma combine_step_nonempty st line :
  is_nonempty (snd (combine_step st line)) = true.
Proof.
  destruct st as [comb cur]. destruct (begins_with_date line) eqn:E.
  - rewrite combine_step_dated by exact E. now apply begins_with_date_nonempty.
  - rewrite combine_step_continued by exact E. now destruct cur.
Qed.

Lemma combine_loop_nonempty lines : forall st,
  is_nonempty (snd st) = true ->
  is_nonempty (snd (fold_left combine_step lines st)) = true.
Proof.
  induction lines as [|l lines IH]; intros st H; cbn [fold_left];
    [exact H | apply IH, combine_step_nonempty].
Qed.

Lemma combine_finish_trailing_empty st :
  is_nonempty (snd st) = true ->
  combine_finish (fold_left combine_step [[]] st) = combine_finish st.
Proof.
  destruct st as [comb cur]. cbn [fold_left snd]. intros Hne.
  rewrite (combine_step_continued comb cur []) by reflexivity.
  rewrite !combine_finish_eq. f_equal. unfold flush_line. rewrite Hne.
  rewrite strip_app_space. now destruct cur.
Qed.

Lemma combine_lines_trailing_empty l ls :
  combine_lines ((l :: ls) ++ [[]]) = combine_lines (l :: ls).
Proof.
  unfold combine_lines. rewrite fold_left_app.
  apply combine_finish_trailing_empty. cbn [fold_left].
  apply combine_loop_nonempty, combine_step_nonempty.
Qed.

Lemma combine_broken_lines_trailing_newline text :
  combine_broken_lines (text ++ [newline]) = combine_broken_lines text.
Proof.
  unfold combine_broken_lines. rewrite split_lines_app.
  destruct (split_lines_cons text) as (l & ls & ->).
  apply combine_lines_trailing_empty.
Qed.

(** C3, as the code has it: raw lines before the first dated line are not
    discarded by the reconstructor.  When there are any, they are joined,
    each behind one space, and the trimmed result is the first logical
    line; the logical lines that follow it, and all of them when the first
    raw line is dated, begin with a date token. *)
Theorem combine_broken_lines_shape (text : str) :
  let lines := split_lines text in
  combine_broken_lines text =
    match pre_date_lines lines with
    | [] => []
    | _ :: _ => [strip (join_continuations (pre_date_lines lines))]
    end ++ combine_lines (dated_lines lines) /\
  Forall (fun l => begins_with_date l = true)
         (combine_lines (dated_lines lines)).
Proof.
  intros lines. unfold combine_broken_lines. fold lines.
  assert (Hflush :
    match pre_date_lines lines with
    | [] => []
    | _ :: _ => [strip (join_continuations (pre_date_lines lines))]
    end = flush_line (join_continuations (pre_date_lines lines))).
  { destruct (pre_date_lines lines); reflexivity. }
  rewrite Hflush. split.
  - rewrite (lines_cut lines) at 1. unfold combine_lines at 1.
    rewrite fold_left_app, combine_pre_date. simpl app.
    destruct (dated_lines_head lines) as [E|(d & rest & E & Hd)]; rewrite E.
    + cbn [fold_left]. rewrite combine_finish_eq.
      change (combine_lines []) with (@nil str). now rewrite app_nil_r.
    + now rewrite combine_restart by exact Hd.
  - destruct (dated_lines_head lines) as [E|(d & rest & E & Hd)]; rewrite E.
    + constructor.
    + now apply combine_dated.
Qed.

(** C3, as the spec has it, fails: the line before the first date is
    emitted as a logical line of its own, and it does not begin with a
    date token. *)
Lemma combine_broken_lines_keeps_orphan :
  let text :=
    s "orphan text" ++ newline :: s "02-03-2024 Compra 111 $10,00$100,00" in
  combine_broken_lines text =
    [s "orphan text"; s "02-03-2024 Compra 111 $10,00$100,00"] /\
  In (s "orphan text") (combine_broken_lines text) /\
  ~ Forall (fun l => begins_with_date l = true) (combine_broken_lines text).
Proof.
  cbv zeta. split; [reflexivity|]. split; [now left|].
  intros H. inversion H as [|? ? Hd _]. vm_compute in Hd. discriminate.
Qed.

(** C4: on the two raw lines "orphan text" and a dated line, the pipeline
    yields exactly one record, the one of the dated line alone, and neither
    "orphan" nor "text" occurs in any of its fields. *)
Theorem pdf_text_to_dataframe_orphan :
  let dated := s "02-03-2024 Compra 111 $10,00$100,00" in
  let text := s "orphan text" ++ newline :: dated in
  let row := mk_fields (s "02-03-2024") (s "Compra") (s "111")
                       (s "10.00") (s "100.00") in
  pdf_text_to_dataframe text = Ok [row] /\
  pdf_text_to_dataframe dated = Ok [row] /\
  forallb (fun field =>
             negb (occurs_in (s "orphan") field) &&
             negb (occurs_in (s "text") field))
          [f_date row; f_description row; f_operation_id row;
           f_value row; f_balance row] = true.
Proof. vm_compute. repeat split. Qed.

(** C5: cutting a text at a line break that is followed by a dated line,
    reconstructing the two halves and concatenating gives the
    reconstruction of the whole text, whether the line break is dropped or
    left at the end of the first half. *)
Theorem combine_broken_lines_split (t1 t2 : str) :
  begins_with_date t2 = true ->
  combine_broken_lines (t1 ++ newline :: t2) =
    combine_broken_lines t1 ++ combine_broken_lines t2 /\
  combine_broken_lines ((t1 ++ [newline]) ++ t2) =
    combine_broken_lines (t1 ++ [newline]) ++ combine_broken_lines t2.
Proof.
  intros Hd.
  assert (E : combine_broken_lines (t1 ++ newline :: t2) =
              combine_broken_lines t1 ++ combine_broken_lines t2).
  { unfold combine_broken_lines. rewrite split_lines_app.
    destruct (match_classes_first_line date_pattern t2 date_pattern_no_newline Hd)
      as (d & rest & -> & Hl).
    now apply combine_lines_app. }
  split; [exact E|].
  rewrite <- app_assoc. simpl app.
  now rewrite combine_broken_lines_trailing_newline.
Qed.

Lemma combine_broken_lines_split_witness :
  begins_with_date (s "02-03-2024 B 2 $3,00$4,00") = true /\
  combine_broken_lines
    (s "01-03-2024 A 1 $1,00$2,00" ++ newline :: s "02-03-2024 B 2 $3,00$4,00") =
  combine_broken_lines (s "01-03-2024 A 1 $1,00$2,00") ++
  combine_broken_lines (s "02-03-2024 B 2 $3,00$4,00").
Proof.
  split; [reflexivity|].
  apply (combine_broken_lines_split
           (s "01-03-2024 A 1 $1,00$2,00") (s "02-03-2024 B 2 $3,00$4,00")).
  reflexivity.
Defined.

(** ** Strings without white space at the ends *)

Lemma rstrip_no_space x :
  (forall c, In c x -> is_space c = false) -> rstrip x = x.
Proof.
  induction x as [|a x IH]; intros H; [reflexivity|].
  rewrite rstrip_cons_keep by (apply H; now left).
  rewrite IH; [reflexivity|]. intros c Hc. apply H. now right.
Qed.

Lemma strip_no_space x :
  (forall c, In c x -> is_space c = false) -> strip x = x.
Proof.
  intros H. unfold strip.
  assert (E : lstrip x = x).
  { destruct x as [|a x]; [reflexivity|]. simpl.
    now rewrite (H a (or_introl eq_refl)). }
  rewrite E. now apply rstrip_no_space.
Qed.

Lemma money_steps_no_space x :
  (forall c, In c x -> is_space c = false) ->
  forall c, In c (money_steps x) -> is_space c = false.
Proof.
  unfold money_steps. intros H c Hc.
  apply in_map_iff in Hc as (d & E & Hin).
  apply filter_In in Hin as [Hin _]. apply filter_In in Hin as [Hin _].
  destruct (Ascii.eqb d comma); subst c; [reflexivity | now apply H].
Qed.

(** C6: [convert_money_to_number] drops every [$], drops every [.] and
    then turns every [,] into [.]; the result is that string with the white
    space at its two ends trimmed, so it is that string itself when the
    input holds no white space.  No [$] and no [,] is left, and the result
    has one [.] for each [,] of the input.  The two samples of the spec
    come out as stated. *)
Theorem convert_money_to_number_steps :
  (forall x, convert_money_to_number x = strip (money_steps x)) /\
  (forall x, (forall c, In c x -> is_space c = false) ->
             convert_money_to_number x = money_steps x) /\
  (forall x, ~ In dollar (convert_money_to_number x) /\
             ~ In comma (convert_money_to_number x) /\
             count_char dot (convert_money_to_number x) = count_char comma x) /\
  convert_money_to_number (s "$1.234,56") = s "1234.56" /\
  convert_money_to_number (s "$50,00") = s "50.00".
Proof.
  split; [exact convert_money_steps|]. split; [|split].
  - intros x H. rewrite convert_money_steps.
    apply strip_no_space. now apply money_steps_no_space.
  - intros x. rewrite convert_money_steps.
    destruct (money_steps_clean x) as [Hd Hc].
    split; [|split].
    + intros H. now apply Hd, In_strip.
    + intros H. now apply Hc, In_strip.
    + rewrite count_char_strip by reflexivity. apply money_steps_dots.
  - split; reflexivity.
Qed.

Lemma convert_money_to_number_steps_witness :
  convert_money_to_number (s "$1.234,56") = money_steps (s "$1.234,56").
Proof.
  apply (proj1 (proj2 convert_money_to_number_steps) (s "$1.234,56")).
  intros c Hc. simpl in Hc.
  repeat (destruct Hc as [<-|Hc]; [reflexivity|]). contradiction.
Defined.

(** C7: in every record the extractor emits, the balance has at most two
    characters after its first [.], being [clean_balance] of the normalized
    balance span, while the value is the normalized value span as
    [convert_money_to_number] returns it.  A line whose two spans are both
    "$100,456" gets the value "100.456" and the balance "100.45". *)
Theorem clamp_balance_only :
  (forall line row,
     extract_fields_from_line line = Ok (Some row) ->
     decimals_after_dot (f_balance row) <= 2 /\
     f_value row = convert_money_to_number (strip (value_span line)) /\
     clean_balance (convert_money_to_number (strip (balance_span line)))
       = Ok (f_balance row)) /\
  (let line := s "01-03-2024 X 1 $100,456$100,456" in
   value_span line = s "$100,456" /\
   balance_span line = s "$100,456" /\
   convert_money_to_number (s "$100,456") = s "100.456" /\
   clean_balance (s "100.456") = Ok (s "100.45") /\
   extract_fields_from_line line =
     Ok (Some (mk_fields (s "01-03-2024") (s "X") (s "1")
                         (s "100.456") (s "100.45")))).
Proof.
  split; [|vm_compute; repeat split].
  intros line row E.
  destruct (begins_with_date line) eqn:Hd;
    [|rewrite extract_no_date in E by exact Hd; discriminate].
  destruct (le_lt_dec 2 (count_char dollar (after_date line))) as [Hc|Hc];
    [|rewrite extract_few_markers in E by assumption; discriminate].
  destruct (extract_spans line Hd Hc)
    as [[_ E']|(a & id & b & _ & _ & _ & _ & _ & E')];
    rewrite E' in E; [discriminate|].
  injection E as <-. cbn [f_balance f_value].
  split; [apply clamp_decimals_bound|]. split; [reflexivity|].
  apply clean_balance_ok.
Qed.

Lemma clamp_balance_only_witness :
  decimals_after_dot (s "100.45") <= 2 /\
  s "100.456" =
    convert_money_to_number
      (strip (value_span (s "01-03-2024 X 1 $100,456$100,456"))).
Proof.
  pose proof (proj1 clamp_balance_only
                (s "01-03-2024 X 1 $100,456$100,456")
                (mk_fields (s "01-03-2024") (s "X") (s "1")
                           (s "100.456") (s "100.45"))
                eq_refl) as H.
  split; [exact (proj1 H) | exact (proj1 (proj2 H))].
Defined.

(** C8: [clean_balance] never raises, and applying it to its own result
    gives that result again. *)
Theorem clean_balance_idempotent (x : str) :
  (exists y, clean_balance x = Ok y /\ clean_balance y = Ok y) /\
  (y <- clean_balance x ;; clean_balance y) = clean_balance x.
Proof.
  assert (E : clean_balance (clamp_decimals x) = Ok (clamp_decimals x))
    by (now rewrite clean_balance_ok, clamp_decimals_idem).
  split.
  - exists (clamp_decimals x). split; [apply clean_balance_ok | exact E].
  - rewrite (clean_balance_ok x). exact E.
Qed.

(** ** Subscripts that succeed *)

Lemma getitem_ok_length {A} (l : list A) i a :
  getitem l i = Ok a -> (0 <= i)%Z -> Z.to_nat i < length l.
Proof.
  unfold getitem. intros H Hi.
  rewrite (proj2 (Z.ltb_ge _ _) Hi) in H.
  destruct (i <? 0)%Z eqn:E1; [discriminate|].
  destruct (Z.of_nat (length l) <=? i)%Z eqn:E2; [discriminate|].
  apply Z.leb_gt in E2. lia.
Qed.

Lemma getitem_nil_raises {A} i : @getitem A [] i = Raise IndexError.
Proof.
  destruct i; reflexivity.
Qed.

(** C9: on every string the extractor returns, either no-match or a record;
    it never raises.  Where the code subscripts or slices, the indices are
    in range: the date match ends inside the line, the first two markers
    lie in order inside the remainder, and the operation id is found in the
    text before the first marker, so that [rfind] returns a position at
    which the id fits and never -1. *)
Theorem extract_fields_from_line_safe (line : str) :
  (extract_fields_from_line line = Ok None \/
   exists row, extract_fields_from_line line = Ok (Some row)) /\
  (forall e, extract_fields_from_line line <> Raise e) /\
  (forall date_match,
     date_pattern_search line = Some date_match ->
     m_end date_match <= length line /\
     let rest_of_line := strip (slice_from line (m_end date_match)) in
     forall m0 m1,
       getitem (money_pattern_finditer rest_of_line) 0 = Ok m0 ->
       getitem (money_pattern_finditer rest_of_line) 1 = Ok m1 ->
       m_start m0 < m_start m1 /\ m_start m1 < length rest_of_line /\
       let before_money := strip (slice rest_of_line 0 (m_start m0)) in
       forall operation_id,
         getitem (id_pattern_findall before_money) (-1) = Ok operation_id ->
         (0 <= rfind operation_id before_money)%Z /\
         (rfind operation_id before_money + Z.of_nat (length operation_id)
          <= Z.of_nat (length before_money))%Z /\
         exists y, clean_balance
                     (convert_money_to_number
                        (strip (slice_from rest_of_line (m_start m1))))
                   = Ok y).
Proof.
  split; [apply extract_total|]. split.
  { intros e. destruct (extract_total line) as [E|[row E]]; rewrite E; discriminate. }
  intros dm Hdm. unfold date_pattern_search in Hdm.
  rewrite date_pattern_match_eq in Hdm.
  destruct (match_classes date_pattern line) eqn:Hd; [|discriminate].
  injection Hdm as <-. cbn [m_end].
  split; [exact (match_classes_length date_pattern line Hd)|].
  cbv zeta. intros m0 m1 H0 H1. unfold slice_from in *.
  assert (Hc : 2 <= count_char dollar (skipn 10 line)).
  { apply getitem_ok_length in H1; [|lia].
    unfold money_pattern_finditer in H1.
    rewrite finditer_from_length, count_char_strip in H1 by reflexivity.
    change (Z.to_nat 1) with 1 in H1. lia. }
  pose proof (cut_twice _ Hc) as Hcut.
  set (pre := before_char dollar (skipn 10 line)) in *.
  set (mid := before_char dollar (after_char dollar (skipn 10 line))) in *.
  set (post := after_char dollar (after_char dollar (skipn 10 line))) in *.
  assert (Hpre : ~ In dollar (lstrip pre))
    by (intros Hin; apply (before_char_clean dollar (skipn 10 line)), In_lstrip, Hin).
  assert (Hmid : ~ In dollar mid) by apply before_char_clean.
  rewrite Hcut, strip_cut in *. unfold money_pattern_finditer in H0, H1.
  rewrite finditer_from_app in H0, H1 by exact Hpre.
  rewrite finditer_from_app in H0, H1 by exact Hmid.
  rewrite getitem_0 in H0. rewrite getitem_1 in H1.
  injection H0 as <-. injection H1 as <-. cbn [m_start Nat.add].
  split; [lia|]. split.
  { rewrite length_app. cbn [length]. rewrite length_app. cbn [length]. lia. }
  cbv zeta. intros id Hid. unfold slice in *.
  rewrite Nat.sub_0_r, skipn_O, firstn_length_app, strip_lstrip in *.
  unfold id_pattern_findall in Hid.
  destruct (has_digit (strip pre)) eqn:Hy.
  - destruct (digit_runs_last (strip pre) [] eq_refl (or_intror Hy))
      as (runs & a & id' & b & H1 & H2 & H3 & H4 & H5).
    rewrite H1, getitem_last in Hid. injection Hid as <-.
    simpl app in H2. rewrite H2.
    pose proof (rfind_found a id' b) as Hf.
    split; [exact Hf|]. split; [now apply rfind_range|].
    eexists. apply clean_balance_ok.
  - rewrite digit_runs_none in Hid by exact Hy.
    cbn [flush_run] in Hid. rewrite getitem_nil_raises in Hid. discriminate.
Qed.

Lemma extract_fields_from_line_safe_witness :
  let line := s "01-03-2024 Pago 12 de 12 $1.000,00$5.432,10" in
  date_pattern_search line
    = Some (mk_match 0 10 (s "01-03-2024")) /\
  (0 <= rfind (s "12") (s "Pago 12 de 12"))%Z.
Proof.
  cbv zeta. split; [reflexivity|].
  pose proof (proj2 (proj2 (extract_fields_from_line_safe
                              (s "01-03-2024 Pago 12 de 12 $1.000,00$5.432,10")))
                (mk_match 0 10 (s "01-03-2024")) eq_refl) as [_ H].
  destruct (H (mk_match 14 15 [dollar]) (mk_match 23 24 [dollar])
              eq_refl eq_refl) as (_ & _ & Hid).
  exact (proj1 (Hid (s "12") eq_refl)).
Defined.

(** C10: a line with a leading date, a digit before the first marker and
    three or more markers still yields exactly one record.  Its value is
    the normalized text between the first two markers; its balance is
    [clean_balance] of the normalized text from the second marker to the end
    of the line, a span that holds every marker but the first. *)
Theorem extra_markers_absorbed (line : str) :
  begins_with_date line = true ->
  has_digit (before_money_span line) = true ->
  3 <= count_char dollar (after_date line) ->
  exists row,
    extract_fields_from_line line = Ok (Some row) /\
    collect_rows [] [line] = Ok [row] /\
    f_value row = convert_money_to_number (strip (value_span line)) /\
    clean_balance (convert_money_to_number (strip (balance_span line)))
      = Ok (f_balance row) /\
    (exists head, line = head ++ balance_span line) /\
    count_char dollar (value_span line) = 1 /\
    count_char dollar (balance_span line)
      = count_char dollar (after_date line) - 1.
Proof.
  intros Hd Hy Hc.
  assert (Hc2 : 2 <= count_char dollar (after_date line)) by lia.
  destruct (extract_spans line Hd Hc2)
    as [[Hn _]|(a & id & b & _ & _ & _ & _ & _ & E)]; [congruence|].
  eexists. split; [exact E|]. split.
  { rewrite collect_rows_eq. unfold records_of, record_of. cbn [flat_map].
    now rewrite E. }
  cbn [f_value f_balance]. split; [reflexivity|].
  split; [apply clean_balance_ok|].
  pose proof (cut_twice _ Hc2) as Hcut.
  assert (H1 : 0 < count_char dollar (after_date line)) by lia.
  pose proof (count_after_char dollar _ H1) as E1.
  assert (H2 : 0 < count_char dollar (after_char dollar (after_date line))) by lia.
  pose proof (count_after_char dollar _ H2) as E2.
  split; [|split].
  - exists (firstn 10 line ++ before_money_span line ++
            dollar :: before_char dollar (after_char dollar (after_date line))).
    unfold balance_span, before_money_span, after_date in *.
    rewrite <- !app_assoc. cbn [app]. rewrite <- Hcut.
    symmetry. apply firstn_skipn.
  - unfold value_span, count_char. cbn [count_occ].
    destruct (ascii_dec dollar dollar); [|congruence].
    f_equal. apply count_occ_not_In, before_char_clean.
  - unfold balance_span, count_char in *. cbn [count_occ].
    destruct (ascii_dec dollar dollar); [|congruence]. lia.
Qed.

Lemma extra_markers_absorbed_witness :
  let line := s "01-03-2024 X 1 $ 1 $2$3 foo" in
  begins_with_date line = true /\
  has_digit (before_money_span line) = true /\
  3 <= count_char dollar (after_date line) /\
  exists row,
    extract_fields_from_line line = Ok (Some row) /\
    collect_rows [] [line] = Ok [row].
Proof.
  cbv zeta. split; [reflexivity|]. split; [reflexivity|].
  split; [vm_compute; lia|].
  destruct (extra_markers_absorbed (s "01-03-2024 X 1 $ 1 $2$3 foo")
              eq_refl eq_refl)
    as (row & E & R & _).
  - vm_compute. lia.
  - exists row. now split.
Defined.

(** * Further properties *)

(** ** File names *)

Lemma sanitize_filename_map x :
  sanitize_filename x =
  map (fun c => if Ascii.eqb c space then underscore else c)
      (filter (fun c => negb (is_forbidden c)) x).
Proof. unfold sanitize_filename, re_sub_delete. apply replace_single. Qed.

Lemma sanitize_filename_app a b :
  sanitize_filename (a ++ b) = sanitize_filename a ++ sanitize_filename b.
Proof. now rewrite !sanitize_filename_map, filter_app, map_app. Qed.

Lemma sanitize_filename_plain x :
  forallb is_plain x = true -> sanitize_filename x = x.
Proof.
  rewrite sanitize_filename_map. unfold is_plain.
  induction x as [|c x IH]; intros H; [reflexivity|].
  cbn [forallb] in H. apply andb_true_iff in H as [Hc Hx].
  apply andb_true_iff in Hc as [Hf Hs].
  cbn [filter]. rewrite Hf. cbn [map].
  apply negb_true_iff in Hs. rewrite Hs. f_equal. now apply IH.
Qed.

Lemma sanitize_filename_is_plain x :
  forallb is_plain (sanitize_filename x) = true.
Proof.
  rewrite sanitize_filename_map. unfold is_plain.
  induction x as [|c x IH]; [reflexivity|].
  cbn [filter]. destruct (is_forbidden c) eqn:Hf; cbn [negb]; [exact IH|].
  cbn [map forallb]. rewrite IH, andb_true_r.
  destruct (Ascii.eqb c space) eqn:Hs; [reflexivity|].
  now rewrite Hf, Hs.
Qed.

(** X1: the result of [sanitize_filename] holds none of the characters
    backslash, slash, star, question mark, colon, double quote, angle
    brackets or bar, and no space; it is never longer than the input. *)
Theorem sanitize_filename_clean (x : str) :
  (forall c, In c (sanitize_filename x) ->
             is_forbidden c = false /\ c <> space) /\
  length (sanitize_filename x) <= length x.
Proof.
  split.
  - intros c Hc.
    pose proof (sanitize_filename_is_plain x) as H.
    rewrite forallb_forall in H. specialize (H c Hc). unfold is_plain in H.
    apply andb_true_iff in H as [Hf Hs].
    apply negb_true_iff in Hf, Hs. split; [exact Hf|].
    now apply eqb_dec_false.
  - rewrite sanitize_filename_map, length_map. apply filter_length_le.
Qed.

Lemma sanitize_filename_clean_witness :
  is_forbidden underscore = false /\ underscore <> space.
Proof.
  apply (proj1 (sanitize_filename_clean (s "a b/c")) underscore).
  right. left. reflexivity.
Defined.

(** X2: [sanitize_filename] leaves a name unchanged exactly when the name
    holds no character of its class and no space; so sanitizing twice is
    the same as sanitizing once. *)
Theorem sanitize_filename_fixes (x : str) :
  (sanitize_filename x = x <-> forallb is_plain x = true) /\
  sanitize_filename (sanitize_filename x) = sanitize_filename x.
Proof.
  split.
  - split.
    + intros E. rewrite <- E. apply sanitize_filename_is_plain.
    + apply sanitize_filename_plain.
  - apply sanitize_filename_plain, sanitize_filename_is_plain.
Qed.

Lemma sanitize_filename_fixes_witness :
  sanitize_filename (s "Del_01-03-2024") = s "Del_01-03-2024".
Proof.
  apply (proj2 (proj1 (sanitize_filename_fixes (s "Del_01-03-2024")))).
  reflexivity.
Defined.

Lemma date_token_plain d :
  begins_with_date d = true -> length d = 10 -> forallb is_plain d = true.
Proof.
  unfold begins_with_date, date_pattern. intros H Hl.
  do 10 (destruct d as [|? d]; [discriminate|]).
  destruct d; [|discriminate]. cbn [match_classes] in H.
  repeat (apply andb_true_iff in H as [?H H]).
  assert (Hdig : forall c, is_digit c = true -> is_plain c = true).
  { intros c. destruct c as [[] [] [] [] [] [] [] []]; vm_compute; congruence. }
  assert (Hdash : forall c, is_dash c = true -> is_plain c = true).
  { intros c Hc. apply eqb_dec_true in Hc. now subst c. }
  cbn [forallb].
  repeat match goal with
         | Hc : is_digit ?c = true |- _ => rewrite (Hdig c Hc); clear Hc
         | Hc : is_dash ?c = true |- _ => rewrite (Hdash c Hc); clear Hc
         end.
  reflexivity.
Qed.

(** X3: when the two dates of the period are date tokens, the period name
    passes through [sanitize_filename] unchanged, so the workbook is named
    CONSOLIDADO_MERCADOPAGO_Del_<first>_al_<last>.xlsx. *)
Theorem consolidated_filename_dates (min_date max_date : str) :
  begins_with_date min_date = true -> length min_date = 10 ->
  begins_with_date max_date = true -> length max_date = 10 ->
  sanitize_filename (period_name min_date max_date)
    = period_name min_date max_date /\
  consolidated_filename (period_name min_date max_date) =
    s "CONSOLIDADO_MERCADOPAGO_Del_" ++ min_date ++ s "_al_" ++ max_date
    ++ s ".xlsx".
Proof.
  intros H1 L1 H2 L2.
  assert (E : sanitize_filename (period_name min_date max_date)
              = period_name min_date max_date).
  { unfold period_name. rewrite !sanitize_filename_app.
    rewrite (sanitize_filename_plain min_date) by now apply date_token_plain.
    rewrite (sanitize_filename_plain max_date) by now apply date_token_plain.
    reflexivity. }
  split; [exact E|].
  unfold consolidated_filename. rewrite E. unfold period_name.
  change (s "CONSOLIDADO_MERCADOPAGO_Del_")
    with (s "CONSOLIDADO_MERCADOPAGO_" ++ s "Del_").
  now rewrite <- !app_assoc.
Qed.

Lemma consolidated_filename_dates_witness :
  consolidated_filename (period_name (s "01-03-2024") (s "31-03-2024")) =
  s "CONSOLIDADO_MERCADOPAGO_Del_" ++ s "01-03-2024" ++ s "_al_"
  ++ s "31-03-2024" ++ s ".xlsx".
Proof.
  apply (consolidated_filename_dates (s "01-03-2024") (s "31-03-2024"));
    reflexivity.
Defined.

(** ** Transactions in the raw text *)

Lemma combine_continuations conts : forall comb cur,
  Forall (fun l => begins_with_date l = false) conts ->
  fold_left combine_step conts (comb, cur) =
  (comb, cur ++ join_continuations conts).
Proof.
  unfold join_continuations.
  induction conts as [|l conts IH]; intros comb cur H; cbn [fold_left flat_map].
  - now rewrite app_nil_r.
  - inversion H as [|? ? Hl Hrest]; subst.
    rewrite combine_step_continued by exact Hl.
    rewrite IH by exact Hrest. now rewrite <- app_assoc.
Qed.

Lemma combine_lines_group d conts :
  begins_with_date d = true ->
  Forall (fun l => begins_with_date l = false) conts ->
  combine_lines (d :: conts) = [strip (d ++ join_continuations conts)].
Proof.
  intros Hd Hc. unfold combine_lines. cbn [fold_left].
  rewrite combine_step_dated by exact Hd. cbn [flush_line is_nonempty app].
  rewrite combine_continuations by exact Hc.
  rewrite combine_finish_eq. unfold flush_line.
  destruct d as [|c d]; [discriminate | reflexivity].
Qed.

Lemma combine_lines_groups groups :
  Forall well_grouped groups ->
  combine_lines (flat_map group_lines groups) = map group_line groups.
Proof.
  induction groups as [|g rest IH]; intros H; [reflexivity|].
  inversion H as [|? ? [Hd Hc] Hrest]; subst. specialize (IH Hrest).
  cbn [flat_map map]. destruct rest as [|g' rest'].
  - cbn [flat_map map]. rewrite app_nil_r. now apply combine_lines_group.
  - inversion Hrest as [|? ? [Hd' _] _]; subst.
    change (flat_map group_lines (g' :: rest'))
      with (fst g' :: (snd g' ++ flat_map group_lines rest')) in *.
    rewrite combine_lines_app by exact Hd'.
    rewrite IH. unfold group_lines.
    now rewrite combine_lines_group.
Qed.

(** X4: when the raw lines of a text are a sequence of transactions, each a
    dated line followed by lines that are not dated, the reconstructor
    returns one logical line per transaction, in order: the dated line and
    its continuation lines joined by single spaces, trimmed. *)
Theorem combine_broken_lines_groups (text : str) (groups : list (str * list str)) :
  split_lines text = flat_map group_lines groups ->
  Forall well_grouped groups ->
  combine_broken_lines text = map group_line groups.
Proof.
  intros E H. unfold combine_broken_lines. rewrite E.
  now apply combine_lines_groups.
Qed.

Lemma combine_broken_lines_groups_witness :
  combine_broken_lines
    (s "01-03-2024 Pago" ++ newline ::
     s "de servicios 987654 $1.000,00$5.432,10" ++ newline ::
     s "02-03-2024 Compra 111 $10,00$100,00") =
  [s "01-03-2024 Pago de servicios 987654 $1.000,00$5.432,10";
   s "02-03-2024 Compra 111 $10,00$100,00"].
Proof.
  apply (combine_broken_lines_groups _
           [(s "01-03-2024 Pago", [s "de servicios 987654 $1.000,00$5.432,10"]);
            (s "02-03-2024 Compra 111 $10,00$100,00", [])]).
  - reflexivity.
  - repeat constructor.
Defined.

(** ** Counting logical lines *)

Lemma combine_count lines : forall comb cur,
  is_nonempty cur = true ->
  length (combine_finish (fold_left combine_step lines (comb, cur))) =
  length comb + 1 + length (filter begins_with_date lines).
Proof.
  induction lines as [|l lines IH]; intros comb cur Hne; cbn [fold_left filter].
  - rewrite combine_finish_eq, length_app. unfold flush_line. rewrite Hne.
    simpl. lia.
  - destruct (begins_with_date l) eqn:E.
    + rewrite combine_step_dated by exact E.
      rewrite IH by now apply begins_with_date_nonempty.
      rewrite length_app. unfold flush_line. rewrite Hne. simpl. lia.
    + rewrite combine_step_continued by exact E.
      rewrite IH by now destruct cur. reflexivity.
Qed.

(** X5: the reconstructor returns one logical line for each raw line that
    starts with a date token, and one more when the first raw line does
    not; so its result is never empty. *)
Theorem combine_broken_lines_count (text : str) :
  length (combine_broken_lines text) =
    length (filter begins_with_date (split_lines text)) +
    (if begins_with_date (hd [] (split_lines text)) then 0 else 1) /\
  combine_broken_lines text <> [].
Proof.
  assert (E : length (combine_broken_lines text) =
    length (filter begins_with_date (split_lines text)) +
    (if begins_with_date (hd [] (split_lines text)) then 0 else 1)).
  { unfold combine_broken_lines, combine_lines.
    destruct (split_lines_cons text) as (l & ls & ->).
    cbn [fold_left hd filter]. destruct (begins_with_date l) eqn:Hd.
    - rewrite combine_step_dated by exact Hd.
      rewrite combine_count by now apply begins_with_date_nonempty.
      simpl. lia.
    - rewrite combine_step_continued by exact Hd.
      rewrite combine_count by reflexivity. simpl. lia. }
  split; [exact E|].
  intros N. rewrite N in E. simpl in E.
  destruct (split_lines_cons text) as (l & ls & El). rewrite El in E.
  cbn [hd filter] in E. destruct (begins_with_date l); simpl in E; lia.
Qed.

(** ** Logical lines are trimmed single lines *)

Lemma strip_idem x : strip (strip x) = strip x.
Proof.
  unfold strip. destruct (lstrip x) as [|c y] eqn:E; [reflexivity|].
  pose proof (lstrip_head x c y E) as Hc.
  rewrite rstrip_cons_keep by exact Hc. cbn [lstrip]. rewrite Hc.
  rewrite rstrip_cons_keep by exact Hc. now rewrite rstrip_idem.
Qed.

Lemma split_lines_no_newline x :
  Forall (fun l => ~ In newline l) (split_lines x).
Proof.
  induction x as [|c x IH]; cbn [split_lines].
  - constructor; [tauto | constructor].
  - destruct (Ascii.eqb c newline) eqn:E.
    + constructor; [tauto | exact IH].
    + apply eqb_dec_false in E.
      destruct (split_lines x) as [|l ls].
      * constructor; [|constructor]. intros [H|[]]. congruence.
      * inversion IH as [|? ? Hl Hls]; subst.
        constructor; [|exact Hls]. intros [H|H]; [congruence | tauto].
Qed.

Section Loop_invariant.

Variables R Q P : str -> Prop.

Hypothesis raw_fresh : forall l, R l -> Q l.
Hypothesis raw_appended :
  forall cur l, Q cur -> R l -> Q (cur ++ space :: l).
Hypothesis flushed : forall cur, Q cur -> P (strip cur).

Lemma combine_invariant lines : forall comb cur,
  Forall R lines -> Q cur -> Forall P comb ->
  Forall P (combine_finish (fold_left combine_step lines (comb, cur))).
Proof.
  assert (Hflush : forall comb cur,
             Q cur -> Forall P comb -> Forall P (comb ++ flush_line cur)).
  { intros comb cur Hq Hp. apply Forall_app. split; [exact Hp|].
    unfold flush_line. destruct (is_nonempty cur); [|constructor].
    constructor; [now apply flushed | constructor]. }
  induction lines as [|l lines IH]; intros comb cur Hr Hq Hp;
    cbn [fold_left].
  - rewrite combine_finish_eq. now apply Hflush.
  - inversion Hr as [|? ? Hl Hrest]; subst.
    destruct (begins_with_date l) eqn:E.
    + rewrite combine_step_dated by exact E.
      apply IH; [exact Hrest | now apply raw_fresh | now apply Hflush].
    + rewrite combine_step_continued by exact E.
      apply IH; [exact Hrest | now apply raw_appended | exact Hp].
Qed.

End Loop_invariant.

(** X6: every logical line the reconstructor returns is trimmed (stripping
    it changes nothing) and holds no line break. *)
Theorem combine_broken_lines_trimmed (text : str) :
  Forall (fun y => strip y = y /\ ~ In newline y) (combine_broken_lines text).
Proof.
  unfold combine_broken_lines, combine_lines.
  apply (combine_invariant (fun l => ~ In newline l) (fun l => ~ In newline l)).
  - auto.
  - intros cur l Hc Hl Hin. apply in_app_or in Hin as [H|[H|H]]; auto.
    discriminate.
  - intros cur Hc. split; [apply strip_idem|].
    intros Hin. now apply Hc, In_strip.
  - apply split_lines_no_newline.
  - tauto.
  - constructor.
Qed.

(** ** Reconstructing twice *)

Lemma strip_cons_space c x : is_space c = true -> strip (c :: x) = strip x.
Proof. intros H. unfold strip. cbn [lstrip]. now rewrite H. Qed.

Lemma combine_lines_one x : strip x = x -> combine_lines [x] = [x].
Proof.
  intros Hx. unfold combine_lines. cbn [fold_left].
  destruct (begins_with_date x) eqn:E.
  - rewrite combine_step_dated by exact E. rewrite combine_finish_eq.
    cbn [flush_line is_nonempty app]. unfold flush_line.
    rewrite begins_with_date_nonempty by exact E. now rewrite Hx.
  - rewrite combine_step_continued by exact E. rewrite combine_finish_eq.
    cbn [app]. unfold flush_line. cbn [is_nonempty].
    rewrite strip_cons_space by reflexivity. now rewrite Hx.
Qed.

Lemma combine_lines_fixed x ds :
  Forall (fun y => strip y = y) (x :: ds) ->
  Forall (fun y => begins_with_date y = true) ds ->
  combine_lines (x :: ds) = x :: ds.
Proof.
  revert x. induction ds as [|d ds IH]; intros x Ht Hd.
  - inversion Ht; subst. now apply combine_lines_one.
  - inversion Ht as [|? ? Hx Ht']; subst. inversion Hd as [|? ? Hd1 Hd']; subst.
    change (x :: d :: ds) with ([x] ++ d :: ds).
    rewrite combine_lines_app by exact Hd1.
    rewrite combine_lines_one by exact Hx. rewrite IH by assumption.
    reflexivity.
Qed.

Lemma combine_lines_shape lines :
  combine_lines lines =
    flush_line (join_continuations (pre_date_lines lines))
    ++ combine_lines (dated_lines lines) /\
  Forall (fun l => begins_with_date l = true)
         (combine_lines (dated_lines lines)).
Proof.
  split.
  - rewrite (lines_cut lines) at 1. unfold combine_lines at 1.
    rewrite fold_left_app, combine_pre_date. cbn [app].
    destruct (dated_lines_head lines) as [E|(d & rest & E & Hd)]; rewrite E.
    + cbn [fold_left]. rewrite combine_finish_eq.
      change (combine_lines []) with (@nil str). now rewrite app_nil_r.
    + now rewrite combine_restart by exact Hd.
  - destruct (dated_lines_head lines) as [E|(d & rest & E & Hd)]; rewrite E.
    + constructor.
    + now apply combine_dated.
Qed.

Lemma combine_lines_trimmed lines :
  Forall (fun y => strip y = y) (combine_lines lines).
Proof.
  unfold combine_lines.
  apply (combine_invariant (fun _ => True) (fun _ => True)); auto.
  - intros cur _. apply strip_idem.
  - apply Forall_forall. auto.
Qed.

Lemma combine_lines_idem lines :
  combine_lines (combine_lines lines) = combine_lines lines.
Proof.
  pose proof (combine_lines_trimmed lines) as Ht.
  destruct (combine_lines_shape lines) as [E Hd]. rewrite E in *.
  unfold flush_line in *.
  destruct (is_nonempty (join_continuations (pre_date_lines lines))).
  - cbn [app] in *. now apply combine_lines_fixed.
  - cbn [app] in *.
    destruct (combine_lines (dated_lines lines)) as [|d ds]; [reflexivity|].
    inversion Hd; subst. now apply combine_lines_fixed.
Qed.

Lemma split_lines_single l : ~ In newline l -> split_lines l = [l].
Proof.
  induction l as [|c l IH]; intros H; cbn [split_lines]; [reflexivity|].
  assert (N : Ascii.eqb c newline = false)
    by (apply eqb_dec_false; intros ->; apply H; now left).
  rewrite N, IH; [reflexivity|]. intros Hin. apply H. now right.
Qed.

Lemma split_join_lines l ls :
  Forall (fun y => ~ In newline y) (l :: ls) ->
  split_lines (join_lines (l :: ls)) = l :: ls.
Proof.
  revert l. induction ls as [|l' ls IH]; intros l H.
  - inversion H; subst. now apply split_lines_single.
  - inversion H as [|? ? Hl Hrest]; subst.
    change (join_lines (l :: l' :: ls))
      with (l ++ newline :: join_lines (l' :: ls)).
    rewrite split_lines_app, IH by exact Hrest.
    now rewrite split_lines_single by exact Hl.
Qed.

Lemma combine_broken_lines_nonempty text : combine_broken_lines text <> [].
Proof.
  unfold combine_broken_lines, combine_lines.
  destruct (split_lines_cons text) as (l & ls & ->). cbn [fold_left].
  pose proof (combine_loop_nonempty ls (combine_step ([], []) l)
                (combine_step_nonempty _ _)) as Hne.
  destruct (fold_left combine_step ls (combine_step ([], []) l)) as [comb cur].
  cbn [snd] in Hne. rewrite combine_finish_eq. unfold flush_line.
  rewrite Hne. now destruct comb.
Qed.

(** X7: reconstruction is idempotent.  Running the loop of
    [combine_broken_lines] on the logical lines it returned gives them back,
    and so does joining them with line breaks and reconstructing that
    text. *)
Theorem combine_broken_lines_idempotent (text : str) :
  combine_lines (combine_broken_lines text) = combine_broken_lines text /\
  combine_broken_lines (join_lines (combine_broken_lines text))
    = combine_broken_lines text.
Proof.
  assert (E : combine_lines (combine_broken_lines text)
              = combine_broken_lines text)
    by apply combine_lines_idem.
  split; [exact E|].
  unfold combine_broken_lines at 1.
  pose proof (combine_invariant
                (fun l => ~ In newline l) (fun l => ~ In newline l)
                (fun l => ~ In newline l)) as Hinv.
  assert (Hn : Forall (fun y => ~ In newline y) (combine_broken_lines text)).
  { unfold combine_broken_lines, combine_lines. apply Hinv.
    - auto.
    - intros cur l Hc Hl Hin. apply in_app_or in Hin as [H|[H|H]]; auto.
      discriminate.
    - intros cur Hc Hin. now apply Hc, In_strip.
    - apply split_lines_no_newline.
    - tauto.
    - constructor. }
  pose proof (combine_broken_lines_nonempty text) as Hne.
  destruct (combine_broken_lines text) as [|l ls] eqn:El; [congruence|].
  rewrite split_join_lines by exact Hn. exact E.
Qed.

(** X8: a line break at the end of the text changes neither the logical
    lines nor the rows. *)
Theorem trailing_newline_ignored (text : str) :
  combine_broken_lines (text ++ [newline]) = combine_broken_lines text /\
  pdf_text_to_dataframe (text ++ [newline]) = pdf_text_to_dataframe text.
Proof.
  split; [apply combine_broken_lines_trailing_newline|].
  unfold pdf_text_to_dataframe.
  now rewrite combine_broken_lines_trailing_newline.
Qed.

(** ** White space in front of the first date *)

Lemma lstrip_all_space v x : all_space v = true -> lstrip (v ++ x) = lstrip x.
Proof.
  unfold all_space. induction v as [|c v IH]; intros H; [reflexivity|].
  cbn [forallb] in H. apply andb_true_iff in H as [Hc Hv].
  cbn [app lstrip]. rewrite Hc. now apply IH.
Qed.

Lemma combine_indent lines : forall comb cur v,
  all_space v = true -> is_nonempty cur = true ->
  combine_finish (fold_left combine_step lines (comb, v ++ cur)) =
  combine_finish (fold_left combine_step lines (comb, cur)).
Proof.
  assert (Hflush : forall cur v,
             all_space v = true -> is_nonempty cur = true ->
             flush_line (v ++ cur) = flush_line cur).
  { intros cur v Hv Hne. unfold flush_line. rewrite Hne.
    replace (is_nonempty (v ++ cur)) with true
      by (destruct v; cbn [app]; [now rewrite Hne | reflexivity]).
    unfold strip. now rewrite lstrip_all_space. }
  induction lines as [|l lines IH]; intros comb cur v Hv Hne; cbn [fold_left].
  - rewrite !combine_finish_eq. now rewrite Hflush.
  - destruct (begins_with_date l) eqn:E.
    + rewrite !combine_step_dated by exact E. now rewrite Hflush.
    + rewrite !combine_step_continued by exact E.
      rewrite <- app_assoc. apply IH; [exact Hv | now destruct cur].
Qed.

Lemma split_lines_prefix w x :
  ~ In newline w ->
  split_lines (w ++ x) =
  match split_lines x with
  | [] => [w]
  | l :: ls => (w ++ l) :: ls
  end.
Proof.
  induction w as [|c w IH]; intros H.
  - cbn [app]. now destruct (split_lines_cons x) as (l & ls & ->).
  - cbn [app split_lines].
    assert (N : Ascii.eqb c newline = false)
      by (apply eqb_dec_false; intros ->; apply H; now left).
    rewrite N, IH by (intros Hin; apply H; now right).
    now destruct (split_lines_cons x) as (l & ls & ->).
Qed.

(** X9: white space (other than a line break) in front of a text that
    starts with a date token is ignored: the logical lines and the rows are
    those of the text without it. *)
Theorem leading_space_ignored (w text : str) :
  all_space w = true -> ~ In newline w ->
  begins_with_date text = true ->
  combine_broken_lines (w ++ text) = combine_broken_lines text /\
  pdf_text_to_dataframe (w ++ text) = pdf_text_to_dataframe text.
Proof.
  intros Hw Hn Hd.
  assert (E : combine_broken_lines (w ++ text) = combine_broken_lines text).
  { destruct w as [|c w]; [reflexivity|].
    unfold combine_broken_lines. rewrite split_lines_prefix by exact Hn.
    destruct (match_classes_first_line date_pattern text
                date_pattern_no_newline Hd) as (l & ls & -> & Hl).
    unfold combine_lines. cbn [fold_left].
    assert (Hc : is_space c = true)
      by (unfold all_space in Hw; cbn [forallb] in Hw;
          now apply andb_true_iff in Hw).
    assert (Hnd : begins_with_date ((c :: w) ++ l) = false).
    { unfold begins_with_date. cbn [app date_pattern match_classes].
      destruct (is_digit c) eqn:Ed; [|reflexivity].
      apply digit_not_space in Ed. congruence. }
    rewrite combine_step_continued by exact Hnd.
    rewrite (combine_step_dated [] [] l) by exact Hl.
    cbn [flush_line is_nonempty app].
    change (space :: c :: w ++ l) with ((space :: c :: w) ++ l).
    apply combine_indent.
    - unfold all_space in *. cbn [forallb] in *. exact Hw.
    - now apply begins_with_date_nonempty. }
  split; [exact E|]. unfold pdf_text_to_dataframe. now rewrite E.
Qed.

Lemma leading_space_ignored_witness :
  pdf_text_to_dataframe (s "   01-03-2024 A 1 $1,00$2,00") =
  pdf_text_to_dataframe (s "01-03-2024 A 1 $1,00$2,00").
Proof.
  apply (leading_space_ignored (s "   ") (s "01-03-2024 A 1 $1,00$2,00")).
  - reflexivity.
  - intros H. simpl in H.
    repeat (destruct H as [H|H]; [discriminate|]). contradiction.
  - reflexivity.
Defined.

(** ** The operation id and the text around it *)

(** X10: in every record, the operation id is the last maximal digit run
    of the trimmed text before the first marker: a non-empty digit string
    with no digit behind it and no digit just in front of it.  The
    description is the trimmed text in front of that run, and [rfind] lands
    on that run even when the same digits occur earlier.  The text between
    the id and the first marker is in no field: the date is the leading
    token, the value and the balance are taken from the first marker on. *)
Theorem extract_last_digit_run (line : str) (row : fields) :
  extract_fields_from_line line = Ok (Some row) ->
  exists a b,
    strip (before_money_span line) = a ++ f_operation_id row ++ b /\
    f_operation_id row <> [] /\ all_digits (f_operation_id row) = true /\
    has_digit b = false /\ ends_without_digit a = true /\
    f_description row = strip a /\
    rfind (f_operation_id row) (strip (before_money_span line))
      = Z.of_nat (length a) /\
    f_date row = firstn 10 line /\
    f_value row = convert_money_to_number (strip (value_span line)) /\
    clean_balance (convert_money_to_number (strip (balance_span line)))
      = Ok (f_balance row).
Proof.
  intros E.
  destruct (begins_with_date line) eqn:Hd;
    [|rewrite extract_no_date in E by exact Hd; discriminate].
  destruct (le_lt_dec 2 (count_char dollar (after_date line))) as [Hc|Hc];
    [|rewrite extract_few_markers in E by assumption; discriminate].
  destruct (has_digit (before_money_span line)) eqn:Hy.
  - destruct (extract_record line Hd Hc Hy)
      as (a & id & b & H1 & H2 & H3 & H4 & H5 & H6 & E').
    rewrite E' in E. injection E as <-.
    cbn [f_date f_description f_operation_id f_value f_balance].
    exists a, b. repeat split; auto. apply clean_balance_ok.
  - destruct (extract_spans line Hd Hc)
      as [[_ E']|(a & id & b & Hy' & _)]; congruence.
Qed.

Lemma extract_last_digit_run_witness :
  exists a b,
    s "Pago 12 de 12 ref" = a ++ s "12" ++ b /\
    s "12" <> [] /\ all_digits (s "12") = true /\
    has_digit b = false /\ ends_without_digit a = true /\
    s "Pago 12 de" = strip a /\
    rfind (s "12") (s "Pago 12 de 12 ref") = Z.of_nat (length a) /\
    s "01-03-2024" = s "01-03-2024" /\
    s "1.00" = s "1.00" /\
    clean_balance (s "2.00") = Ok (s "2.00").
Proof.
  exact (extract_last_digit_run
           (s "01-03-2024 Pago 12 de 12 ref $1,00$2,00")
           (mk_fields (s "01-03-2024") (s "Pago 12 de") (s "12")
                      (s "1.00") (s "2.00"))
           eq_refl).
Defined.

(** ** What the fields can hold *)

Lemma match_classes_firstn p : forall x,
  match_classes p x = true -> match_classes p (firstn (length p) x) = true.
Proof.
  induction p as [|k p IH]; intros [|c x] H; simpl in *;
    try reflexivity; try discriminate.
  apply andb_true_iff in H as [Hk H]. now rewrite Hk, IH.
Qed.

Lemma In_clamp_decimals c x : In c (clamp_decimals x) -> In c x.
Proof.
  unfold clamp_decimals. destruct (find_char dot x); [|auto].
  intros H. rewrite <- (firstn_skipn (n + 3) x). apply in_or_app. now left.
Qed.

Lemma convert_clean x :
  ~ In dollar (convert_money_to_number x) /\
  ~ In comma (convert_money_to_number x).
Proof.
  rewrite convert_money_steps. destruct (money_steps_clean x) as [Hd Hc].
  split; intros H; [apply Hd | apply Hc]; now apply In_strip.
Qed.

(** X11: in every record the date is a date token of ten characters, the
    operation id is made of digits only, neither the value nor the balance
    holds a [$] or a [,], and the description and the value are trimmed. *)
Theorem extract_fields_clean (line : str) (row : fields) :
  extract_fields_from_line line = Ok (Some row) ->
  begins_with_date (f_date row) = true /\ length (f_date row) = 10 /\
  all_digits (f_operation_id row) = true /\
  ~ In dollar (f_value row) /\ ~ In comma (f_value row) /\
  ~ In dollar (f_balance row) /\ ~ In comma (f_balance row) /\
  strip (f_description row) = f_description row /\
  strip (f_value row) = f_value row.
Proof.
  intros E.
  destruct (begins_with_date line) eqn:Hd;
    [|rewrite extract_no_date in E by exact Hd; discriminate].
  destruct (le_lt_dec 2 (count_char dollar (after_date line))) as [Hc|Hc];
    [|rewrite extract_few_markers in E by assumption; discriminate].
  destruct (extract_spans line Hd Hc)
    as [[_ E']|(a & id & b & _ & _ & _ & Hid & _ & E')];
    rewrite E' in E; [discriminate|].
  injection E as <-.
  assert (Hlen : length (firstn 10 line) = 10).
  { rewrite length_firstn.
    pose proof (match_classes_length date_pattern line Hd) as Hl.
    simpl in Hl. lia. }
  cbn [f_date f_description f_operation_id f_value f_balance].
  split; [exact (match_classes_firstn date_pattern line Hd)|].
  split; [exact Hlen|].
  split; [exact Hid|].
  destruct (convert_clean (strip (value_span line))) as [Hv1 Hv2].
  destruct (convert_clean (strip (balance_span line))) as [Hb1 Hb2].
  split; [exact Hv1|]. split; [exact Hv2|].
  split; [intros H; now apply Hb1, In_clamp_decimals|].
  split; [intros H; now apply Hb2, In_clamp_decimals|].
  split; [apply strip_idem|].
  unfold convert_money_to_number. apply strip_idem.
Qed.

Lemma extract_fields_clean_witness :
  begins_with_date (s "01-03-2024") = true /\
  ~ In dollar (s "100.45").
Proof.
  pose proof (extract_fields_clean
                (s "01-03-2024 X 1 $100,456$100,456")
                (mk_fields (s "01-03-2024") (s "X") (s "1")
                           (s "100.456") (s "100.45"))
                eq_refl) as H.
  split; [exact (proj1 H)|].
  exact (proj1 (proj2 (proj2 (proj2 (proj2 (proj2 H)))))).
Defined.

(** ** White space at the end of a line *)

Lemma rstrip_all_space w : all_space w = true -> rstrip w = [].
Proof.
  unfold all_space. induction w as [|c w IH]; intros H; [reflexivity|].
  cbn [forallb] in H. apply andb_true_iff in H as [Hc Hw].
  cbn [rstrip]. now rewrite (IH Hw), Hc.
Qed.

Lemma rstrip_app_all_space y w :
  all_space w = true -> rstrip (y ++ w) = rstrip y.
Proof.
  intros Hw. induction y as [|a y IH].
  - now apply rstrip_all_space.
  - cbn [app rstrip]. now rewrite IH.
Qed.

Lemma lstrip_app_all_space y w :
  all_space w = true ->
  lstrip (y ++ w) = lstrip y ++ w \/ (lstrip (y ++ w) = [] /\ lstrip y = []).
Proof.
  intros Hw. induction y as [|a y IH]; cbn [app lstrip].
  - right. split; [|reflexivity].
    rewrite <- (app_nil_r w). now rewrite lstrip_all_space.
  - destruct (is_space a); [exact IH | now left].
Qed.

Lemma strip_app_all_space y w : all_space w = true -> strip (y ++ w) = strip y.
Proof.
  intros Hw. unfold strip.
  destruct (lstrip_app_all_space y w Hw) as [E|[E1 E2]].
  - now rewrite E, rstrip_app_all_space.
  - now rewrite E1, E2.
Qed.

Lemma match_classes_app_space p : forall x w,
  Forall rejects_space p -> all_space w = true ->
  match_classes p (x ++ w) = match_classes p x.
Proof.
  unfold all_space.
  induction p as [|k p IH]; intros x w Hp Hw; [reflexivity|].
  inversion Hp as [|? ? Hk Hp']; subst.
  destruct x as [|c x]; cbn [app match_classes].
  - destruct w as [|c w]; [reflexivity|].
    cbn [forallb] in Hw. apply andb_true_iff in Hw as [Hc _].
    destruct (k c) eqn:Ek; [|reflexivity].
    apply Hk in Ek. congruence.
  - now rewrite IH.
Qed.

(** X12: white space at the end of a line does not change what the
    extractor returns. *)
Theorem extract_trailing_space (line w : str) :
  all_space w = true ->
  extract_fields_from_line (line ++ w) = extract_fields_from_line line.
Proof.
  intros Hw. unfold extract_fields_from_line, date_pattern_search.
  rewrite !date_pattern_match_eq.
  rewrite match_classes_app_space by (auto using date_pattern_no_space).
  destruct (match_classes date_pattern line) eqn:Hd; [|reflexivity].
  pose proof (match_classes_length date_pattern line Hd) as Hl.
  cbn [length date_pattern] in Hl.
  cbn [m_end m_group]. unfold slice_from.
  assert (E1 : firstn 10 (line ++ w) = firstn 10 line).
  { rewrite firstn_app. replace (10 - length line) with 0 by lia.
    cbn [firstn]. apply app_nil_r. }
  assert (E2 : strip (skipn 10 (line ++ w)) = strip (skipn 10 line)).
  { rewrite skipn_app. replace (10 - length line) with 0 by lia.
    cbn [skipn]. now apply strip_app_all_space. }
  now rewrite E1, E2.
Qed.

Lemma extract_trailing_space_witness :
  extract_fields_from_line (s "01-03-2024 A 1 $1,00$2,00" ++ s "  ")
  = extract_fields_from_line (s "01-03-2024 A 1 $1,00$2,00").
Proof.
  apply (extract_trailing_space (s "01-03-2024 A 1 $1,00$2,00") (s "  ")).
  reflexivity.
Defined.

(** ** What the normalizer keeps *)

Section Kept_characters.

Variable keep : ascii -> bool.

Hypothesis keep_not_space : forall c, keep c = true -> is_space c = false.
Hypothesis keep_not_separator :
  forall c, keep c = true -> c <> dollar /\ c <> dot /\ c <> comma.

Lemma filter_keep_lstrip x : filter keep (lstrip x) = filter keep x.
Proof.
  induction x as [|c x IH]; [reflexivity|]. cbn [lstrip filter].
  destruct (is_space c) eqn:Es; [|reflexivity].
  destruct (keep c) eqn:Ek; [|exact IH].
  apply keep_not_space in Ek. congruence.
Qed.

Lemma filter_keep_rstrip x : filter keep (rstrip x) = filter keep x.
Proof.
  induction x as [|c x IH]; [reflexivity|]. cbn [rstrip filter].
  rewrite <- IH. destruct (rstrip x) as [|b r]; [|reflexivity].
  destruct (is_space c) eqn:Es; [|reflexivity].
  destruct (keep c) eqn:Ek; [|reflexivity].
  apply keep_not_space in Ek. congruence.
Qed.

Lemma filter_keep_money_steps x :
  filter keep (money_steps x) = filter keep x.
Proof.
  unfold money_steps. induction x as [|c x IH]; [reflexivity|].
  cbn [filter]. destruct (keep c) eqn:Ek.
  - destruct (keep_not_separator c Ek) as (N1 & N2 & N3).
    apply eqb_dec_false in N1, N2, N3. rewrite N1. cbn [negb filter].
    rewrite N2. cbn [negb map]. rewrite N3. cbn [filter].
    now rewrite Ek, IH.
  - destruct (Ascii.eqb c dollar); cbn [negb]; [exact IH|].
    cbn [filter]. destruct (Ascii.eqb c dot); cbn [negb]; [exact IH|].
    cbn [map]. destruct (Ascii.eqb c comma) eqn:Ec; cbn [filter].
    + destruct (keep dot) eqn:Ed; [|exact IH].
      destruct (keep_not_separator dot Ed) as (_ & N & _). congruence.
    + now rewrite Ek.
Qed.

Lemma filter_keep_convert x :
  filter keep (convert_money_to_number x) = filter keep x.
Proof.
  rewrite convert_money_steps. unfold strip.
  now rewrite filter_keep_rstrip, filter_keep_lstrip, filter_keep_money_steps.
Qed.

End Kept_characters.

Lemma count_char_filter c x :
  count_char c x = length (filter (Ascii.eqb c) x).
Proof.
  unfold count_char. induction x as [|d x IH]; [reflexivity|].
  cbn [count_occ filter]. destruct (ascii_dec d c) as [->|N].
  - rewrite Ascii.eqb_refl. cbn [length]. now rewrite IH.
  - assert (E : Ascii.eqb c d = false) by (apply eqb_dec_false; congruence).
    now rewrite E.
Qed.

(** X13: [convert_money_to_number] keeps the digits of its argument, in
    order, and keeps every occurrence of every character that is neither
    white space nor one of [$], [.] and [,] (a minus sign, a letter). *)
Theorem convert_money_to_number_keeps (x : str) :
  filter is_digit (convert_money_to_number x) = filter is_digit x /\
  (forall c, is_space c = false -> c <> dollar -> c <> dot -> c <> comma ->
             count_char c (convert_money_to_number x) = count_char c x).
Proof.
  split.
  - apply filter_keep_convert.
    + apply digit_not_space.
    + intros c Hc. repeat split; intros ->; vm_compute in Hc; discriminate.
  - intros c Hs N1 N2 N3. rewrite !count_char_filter. f_equal.
    apply filter_keep_convert.
    + intros d Hd. apply eqb_dec_true in Hd. now subst d.
    + intros d Hd. apply eqb_dec_true in Hd. now subst d.
Qed.

Lemma convert_money_to_number_keeps_witness :
  count_char "-"%char (convert_money_to_number (s "$ -1.234,56"))
  = count_char "-"%char (s "$ -1.234,56").
Proof.
  apply (proj2 (convert_money_to_number_keeps (s "$ -1.234,56")) "-"%char);
    [reflexivity | discriminate | discriminate | discriminate].
Defined.

(** ** Truncation *)

Lemma find_char_cut c x p :
  find_char c x = Some p ->
  x = before_char c x ++ c :: after_char c x /\ length (before_char c x) = p.
Proof.
  revert p. induction x as [|d x IH]; intros p; cbn [find_char]; [discriminate|].
  cbn [before_char after_char]. destruct (Ascii.eqb d c) eqn:E.
  - apply eqb_dec_true in E. subst d. intros [= <-]. now split.
  - destruct (find_char c x) as [q|]; [|discriminate].
    intros [= <-]. destruct (IH q eq_refl) as [E1 E2].
    cbn [app length]. split; [now rewrite <- E1 | now rewrite E2].
Qed.

(** X14: [clean_balance] only cuts at the end: its result is a prefix of
    its argument.  An argument with at most two characters after its first
    [.] (or with no [.]) comes back unchanged; otherwise the result is the
    text before the first [.], the [.], and the next two characters, with
    no rounding. *)
Theorem clean_balance_truncates (x y : str) :
  clean_balance x = Ok y ->
  (exists z, x = y ++ z) /\
  (decimals_after_dot x <= 2 -> y = x) /\
  (2 < decimals_after_dot x ->
   y = before_char dot x ++ dot :: firstn 2 (after_char dot x)).
Proof.
  rewrite clean_balance_ok. intros [= <-].
  unfold clamp_decimals, decimals_after_dot.
  destruct (find_char dot x) as [p|] eqn:E.
  - destruct (find_char_cut dot x p E) as [Hcut Hp].
    set (b := before_char dot x) in *. set (a := after_char dot x) in *.
    assert (Hy : firstn (p + 3) x = b ++ dot :: firstn 2 a).
    { rewrite Hcut at 1. rewrite <- Hp, firstn_app_2. reflexivity. }
    assert (Hlen : length x - S p = length a).
    { rewrite Hcut at 1. rewrite length_app. cbn [length]. lia. }
    rewrite Hy, Hlen. split; [|split].
    + exists (skipn 2 a). rewrite Hcut at 1. rewrite <- app_assoc. cbn [app].
      now rewrite firstn_skipn.
    + intros H. rewrite firstn_all2 by exact H. now rewrite <- Hcut.
    + reflexivity.
  - split; [|split].
    + exists []. now rewrite app_nil_r.
    + reflexivity.
    + lia.
Qed.

Lemma clean_balance_truncates_witness :
  s "100.99" = before_char dot (s "100.999") ++ dot ::
               firstn 2 (after_char dot (s "100.999")).
Proof.
  apply (proj2 (proj2 (clean_balance_truncates (s "100.999") (s "100.99")
                         eq_refl))).
  vm_compute. lia.
Defined.

(** ** The table *)

Lemma record_of_length line : length (record_of line) <= 1.
Proof.
  unfold record_of.
  destruct (extract_fields_from_line line) as [[row|]|e]; simpl; lia.
Qed.

Lemma records_of_length lines : length (records_of lines) <= length lines.
Proof.
  unfold records_of. induction lines as [|l lines IH]; [reflexivity|].
  cbn [flat_map length]. rewrite length_app.
  pose proof (record_of_length l). lia.
Qed.

Lemma records_of_In row lines :
  In row (records_of lines) ->
  exists line, In line lines /\ extract_fields_from_line line = Ok (Some row).
Proof.
  unfold records_of. intros H. apply in_flat_map in H as (line & Hl & Hr).
  exists line. split; [exact Hl|]. unfold record_of in Hr.
  destruct (extract_fields_from_line line) as [[row'|]|e];
    try contradiction.
  destruct Hr as [->|[]]. reflexivity.
Qed.

Lemma pdf_text_to_dataframe_eq text :
  pdf_text_to_dataframe text = Ok (records_of (combine_broken_lines text)).
Proof. unfold pdf_text_to_dataframe. now rewrite collect_rows_eq. Qed.

(** X15: [pdf_text_to_dataframe] never raises.  Its rows are the records
    of the logical lines that yield one, in the order of the lines, so
    there is at most one row per logical line and every row is what the
    extractor returns on some logical line. *)
Theorem pdf_text_to_dataframe_rows (text : str) :
  exists rows,
    pdf_text_to_dataframe text = Ok rows /\
    rows = records_of (combine_broken_lines text) /\
    length rows <= length (combine_broken_lines text) /\
    forall row, In row rows ->
      exists line, In line (combine_broken_lines text) /\
                   extract_fields_from_line line = Ok (Some row).
Proof.
  exists (records_of (combine_broken_lines text)).
  split; [apply pdf_text_to_dataframe_eq|]. split; [reflexivity|].
  split; [apply records_of_length|].
  intros row. apply records_of_In.
Qed.

Lemma pdf_text_to_dataframe_rows_witness :
  exists line,
    In line (combine_broken_lines (s "01-03-2024 A 1 $1,00$2,00")) /\
    extract_fields_from_line line =
      Ok (Some (mk_fields (s "01-03-2024") (s "A") (s "1")
                          (s "1.00") (s "2.00"))).
Proof.
  destruct (pdf_text_to_dataframe_rows (s "01-03-2024 A 1 $1,00$2,00"))
    as (rows & _ & Er & _ & H).
  apply H. subst rows. left. reflexivity.
Defined.

Lemma combine_broken_lines_cut t1 t2 :
  begins_with_date t2 = true ->
  combine_broken_lines (t1 ++ newline :: t2) =
  combine_broken_lines t1 ++ combine_broken_lines t2.
Proof.
  intros Hd. unfold combine_broken_lines. rewrite split_lines_app.
  destruct (match_classes_first_line date_pattern t2 date_pattern_no_newline Hd)
    as (d & rest & -> & Hl).
  now apply combine_lines_app.
Qed.

(** X16: the rows of a text cut at a line break that is followed by a
    dated line are the rows of the first part followed by the rows of the
    second part. *)
Theorem pdf_text_to_dataframe_split (t1 t2 : str) :
  begins_with_date t2 = true ->
  exists r1 r2,
    pdf_text_to_dataframe t1 = Ok r1 /\
    pdf_text_to_dataframe t2 = Ok r2 /\
    pdf_text_to_dataframe (t1 ++ newline :: t2) = Ok (r1 ++ r2).
Proof.
  intros Hd.
  exists (records_of (combine_broken_lines t1)),
         (records_of (combine_broken_lines t2)).
  rewrite !pdf_text_to_dataframe_eq.
  rewrite combine_broken_lines_cut by exact Hd.
  now rewrite records_of_app.
Qed.

Lemma pdf_text_to_dataframe_split_witness :
  exists r1 r2,
    pdf_text_to_dataframe (s "01-03-2024 A 1 $1,00$2,00") = Ok r1 /\
    pdf_text_to_dataframe (s "02-03-2024 B 2 $3,00$4,00") = Ok r2 /\
    pdf_text_to_dataframe
      (s "01-03-2024 A 1 $1,00$2,00" ++ newline ::
       s "02-03-2024 B 2 $3,00$4,00") = Ok (r1 ++ r2).
Proof.
  apply (pdf_text_to_dataframe_split
           (s "01-03-2024 A 1 $1,00$2,00") (s "02-03-2024 B 2 $3,00$4,00")).
  reflexivity.
Defined.

(** ** Pages *)

Lemma read_pdf_text_loop pages : forall text,
  fold_left
    (fun text page_text =>
       if is_nonempty page_text then text ++ page_text ++ [newline] else text)
    pages text =
  text ++ flat_map (fun p => p ++ [newline]) (filter is_nonempty pages).
Proof.
  induction pages as [|p pages IH]; intros text; cbn [fold_left filter].
  - cbn [flat_map]. now rewrite app_nil_r.
  - rewrite IH. destruct (is_nonempty p); [|reflexivity].
    cbn [flat_map]. now rewrite <- !app_assoc.
Qed.

Lemma read_pdf_text_eq pages :
  read_pdf_text pages =
  flat_map (fun p => p ++ [newline]) (filter is_nonempty pages).
Proof. unfold read_pdf_text. now rewrite read_pdf_text_loop. Qed.

Lemma split_lines_pages ps :
  split_lines (flat_map (fun p => p ++ [newline]) ps) =
  flat_map split_lines ps ++ [[]].
Proof.
  induction ps as [|p ps IH]; [reflexivity|].
  cbn [flat_map]. rewrite <- app_assoc. cbn [app].
  now rewrite split_lines_app, IH, app_assoc.
Qed.

Lemma flat_map_split_lines_cons p ps :
  exists l ls, flat_map split_lines (p :: ps) = l :: ls.
Proof.
  cbn [flat_map]. destruct (split_lines_cons p) as (l & ls & ->).
  cbn [app]. eauto.
Qed.

Lemma combine_lines_pages ps :
  Forall (fun p => begins_with_date p = true) ps ->
  combine_lines (flat_map split_lines ps) = flat_map combine_broken_lines ps.
Proof.
  induction ps as [|p ps IH]; intros H; [reflexivity|].
  inversion H as [|? ? Hp Hps]; subst. specialize (IH Hps).
  cbn [flat_map]. destruct ps as [|p' ps'].
  - cbn [flat_map]. now rewrite !app_nil_r.
  - inversion Hps as [|? ? Hp' _]; subst.
    destruct (match_classes_first_line date_pattern p'
                date_pattern_no_newline Hp') as (d & rest & E & Hd).
    rewrite <- IH. cbn [flat_map]. rewrite E. cbn [app].
    now rewrite combine_lines_app by exact Hd.
Qed.

(** X17: for a document with at least one non-empty page, the text that
    [read_pdf_text] builds is reconstructed as if the raw lines of the
    non-empty pages followed one another: a page boundary acts as one line
    break, so a transaction may continue on the next page, and the line
    break after the last page adds nothing.  With no non-empty page the
    text is empty. *)
Theorem read_pdf_text_pages (pages : list str) :
  (filter is_nonempty pages = [] -> read_pdf_text pages = []) /\
  (filter is_nonempty pages <> [] ->
   forall file,
     combine_broken_lines (read_pdf_text pages) =
       combine_lines (flat_map split_lines (filter is_nonempty pages)) /\
     process_single_file (file, read_pdf_text pages) =
       Ok (records_of
             (combine_lines (flat_map split_lines (filter is_nonempty pages))))).
Proof.
  rewrite read_pdf_text_eq. split.
  - now intros ->.
  - intros Hne file.
    assert (E : combine_broken_lines
                  (flat_map (fun p => p ++ [newline]) (filter is_nonempty pages))
                = combine_lines
                    (flat_map split_lines (filter is_nonempty pages))).
    { unfold combine_broken_lines. rewrite split_lines_pages.
      destruct (filter is_nonempty pages) as [|p ps]; [congruence|].
      destruct (flat_map_split_lines_cons p ps) as (l & ls & ->).
      apply combine_lines_trailing_empty. }
    split; [exact E|].
    unfold process_single_file. now rewrite pdf_text_to_dataframe_eq, E.
Qed.

Lemma read_pdf_text_pages_witness :
  combine_broken_lines
    (read_pdf_text [s "01-03-2024 Pago"; []; s "de servicios 1 $1,00$2,00"]) =
  combine_lines [s "01-03-2024 Pago"; s "de servicios 1 $1,00$2,00"].
Proof.
  apply (proj2 (read_pdf_text_pages
                  [s "01-03-2024 Pago"; []; s "de servicios 1 $1,00$2,00"])
               ltac:(discriminate) []).
Defined.

Lemma flat_map_nested {A B C} (f : A -> list B) (g : B -> list C) l :
  flat_map g (flat_map f l) = flat_map (fun x => flat_map g (f x)) l.
Proof.
  induction l as [|x l IH]; [reflexivity|].
  cbn [flat_map]. now rewrite flat_map_app, IH.
Qed.

(** X18: when the text of every non-empty page starts with a date token,
    the rows of the document are the rows of its non-empty pages, parsed
    one by one, in order. *)
Theorem process_single_file_pages (file : str) (pages : list str) :
  Forall (fun p => begins_with_date p = true) (filter is_nonempty pages) ->
  process_single_file (file, read_pdf_text pages) =
  Ok (flat_map (fun p => records_of (combine_broken_lines p))
               (filter is_nonempty pages)).
Proof.
  intros H. unfold process_single_file.
  rewrite pdf_text_to_dataframe_eq, read_pdf_text_eq.
  destruct (filter is_nonempty pages) as [|p ps] eqn:Ef; [reflexivity|].
  f_equal. unfold combine_broken_lines at 1. rewrite split_lines_pages.
  destruct (flat_map_split_lines_cons p ps) as (l & ls & El). rewrite El.
  rewrite combine_lines_trailing_empty, <- El.
  rewrite combine_lines_pages by exact H.
  unfold records_of. apply flat_map_nested.
Qed.

Lemma process_single_file_pages_witness :
  process_single_file
    (s "a.pdf",
     read_pdf_text [s "01-03-2024 A 1 $1,00$2,00"; [];
                    s "02-03-2024 B 2 $3,00$4,00"]) =
  Ok (flat_map (fun p => records_of (combine_broken_lines p))
               [s "01-03-2024 A 1 $1,00$2,00"; s "02-03-2024 B 2 $3,00$4,00"]).
Proof.
  apply (process_single_file_pages (s "a.pdf")
           [s "01-03-2024 A 1 $1,00$2,00"; []; s "02-03-2024 B 2 $3,00$4,00"]).
  repeat constructor.
Defined.
